(** * StyleMe salon routes: proximity search and salon/barber aggregation

    A shallow embedding of [src/backend/backend_app/src/routes/salon_routes.py]
    and the properties its specification states about it, followed by the
    suggestion table of [routes/ai_routes.py] and the catch-all route of
    [main.py].

    Numbers.  Python floats are modelled by the real numbers of the Standard
    Library: a finite float is a real, arithmetic is exact, and the only
    non-finite value is the [float('inf')] that [calculate_distance] itself
    creates.  Rounding error of binary64 arithmetic and of the C library's
    [sin], [cos] and [asin] is therefore outside this model, and so are
    integers as a type of their own among the coordinates and requests that
    carry a number that is not finite (a JSON [Infinity], or a literal such
    as [1e400] that is read as one).

    Values.  Dictionaries are finite maps from strings; the JSON bodies of
    the responses are built from [pyval].  A string is the sequence of the
    bytes of its UTF-8 encoding.  An exception is a value of [exn] and a
    computation that may raise returns a [result].

    Effects.  The handlers read the database through the SQLAlchemy query
    interface.  The database is a pair of tables, each a list of rows in
    table order, and a query returns its rows in that order.  It is the
    SQLite database that [main.py] configures by default: an integer that
    is bound to a statement is a signed 64-bit integer, and text is matched
    by SQLite's [LIKE].  A handler is a function of the database that
    returns the log of the queries it issued together with the response. *)

From Stdlib Require Import Reals Lra Lia ZArith Ascii.
From stdpp Require Import gmap strings list fin_maps sorting.

Set Warnings "-register-all".

#[local] Open Scope R_scope.

(** ** Exceptions and results *)

(** The exceptions the modelled code can raise, each with the text that
    [str(e)] gives.  [OverflowError] is what the SQLite driver raises when
    it binds an integer outside the signed 64-bit range; [OperationalError]
    is an error the database reports while it runs a statement (of its text
    only the database's own message is kept; the statement and parameters
    that SQLAlchemy appends are left out). *)
Inductive exn : Type :=
  | TypeError (msg : string)
  | ValueError (msg : string)
  | KeyError (key : string)
  | OverflowError (msg : string)
  | OperationalError (msg : string).

Inductive result (A : Type) : Type :=
  | Return (a : A)
  | Raise (e : exn).
Arguments Return {A} a.
Arguments Raise {A} e.

Definition rbind {A B} (r : result A) (k : A → result B) : result B :=
  match r with
  | Return a => k a
  | Raise e => Raise e
  end.

Declare Scope result_scope.
Delimit Scope result_scope with res.
Notation "x <- r ;; k" := (rbind r (λ x, k))
  (at level 100, r at next level, right associativity) : result_scope.

(** ** Python values *)

(** A Python float: a finite number or [float('inf')]. *)
Inductive pyfloat : Type :=
  | Finite (x : R)
  | Infinity.

(** The values that end up in the JSON bodies of the responses. *)
Inductive pyval : Type :=
  | PyNone
  | PyBool (b : bool)
  | PyInt (z : Z)
  | PyFloat (f : pyfloat)
  | PyStr (s : string)
  | PyList (l : list pyval)
  | PyDict (d : gmap string pyval).

(** A coordinate or a radius as the handlers receive it: [None] or a number.
    [truthy] is Python's truth value: [None] and zero are false. *)
Definition truthy (v : option R) : bool :=
  match v with
  | None => false
  | Some x => if Req_dec_T x 0 then false else true
  end.

(** [all([...])] *)
Definition py_all (l : list (option R)) : bool := forallb truthy l.

(** [x <= y] for a float [x] and a value [y] that is a number or [None];
    comparing a float with [None] raises [TypeError]. *)
Definition pyfloat_le (x y : pyfloat) : Prop :=
  match x, y with
  | Finite a, Finite b => a <= b
  | _, Infinity => True
  | Infinity, Finite _ => False
  end.

Definition pyfloat_lt (x y : pyfloat) : Prop :=
  match x, y with
  | Finite a, Finite b => a < b
  | Finite _, Infinity => True
  | Infinity, _ => False
  end.

Definition pyfloat_leb (x y : pyfloat) : bool :=
  match x, y with
  | Finite a, Finite b => if Rle_dec a b then true else false
  | _, Infinity => true
  | Infinity, Finite _ => false
  end.

Definition pyfloat_ltb (x y : pyfloat) : bool :=
  match x, y with
  | Finite a, Finite b => if Rlt_dec a b then true else false
  | Finite _, Infinity => true
  | Infinity, _ => false
  end.

Definition le_none_error : exn :=
  TypeError "'<=' not supported between instances of 'float' and 'NoneType'".

Definition py_le (x : pyfloat) (y : option R) : result bool :=
  match y with
  | None => Raise le_none_error
  | Some r => Return (pyfloat_leb x (Finite r))
  end.

(** ** The [math] module *)

Definition math_radians (v : option R) : result R :=
  match v with
  | None => Raise (TypeError "must be real number, not NoneType")
  | Some x => Return (x * (PI / 180))
  end.

(** [math.sqrt] raises [ValueError] below zero. *)
Definition math_sqrt (x : R) : result R :=
  if Rlt_dec x 0 then Raise (ValueError "math domain error") else Return (sqrt x).

(** [math.asin] raises [ValueError] outside [[-1, 1]]. *)
Definition math_asin (x : R) : result R :=
  if Rlt_dec x (-1) then Raise (ValueError "math domain error")
  else if Rlt_dec 1 x then Raise (ValueError "math domain error")
  else Return (asin x).

(** [round(x, 2)]: to the nearest multiple of 1/100, ties to the even one;
    infinities round to themselves. *)
Definition round_half_even (x : R) : Z :=
  let f := (up x - 1)%Z in
  let d := x - IZR f in
  if Rlt_dec d (1 / 2) then f
  else if Rlt_dec (1 / 2) d then (f + 1)%Z
  else if Z.even f then f else (f + 1)%Z.

Definition py_round2 (x : pyfloat) : pyfloat :=
  match x with
  | Finite r => Finite (IZR (round_half_even (r * 100)) / 100)
  | Infinity => Infinity
  end.

(** ** [calculate_distance] *)

Definition calculate_distance (lat1 lon1 lat2 lon2 : option R) : result pyfloat :=
  if negb (py_all [lat1; lon1; lat2; lon2]) then Return Infinity
  else
    (lat1 <- math_radians lat1 ;;
     lon1 <- math_radians lon1 ;;
     lat2 <- math_radians lat2 ;;
     lon2 <- math_radians lon2 ;;
     let dlat := lat2 - lat1 in
     let dlon := lon2 - lon1 in
     let a := sin (dlat / 2) ^ 2 + cos lat1 * cos lat2 * sin (dlon / 2) ^ 2 in
     s <- math_sqrt a ;;
     t <- math_asin s ;;
     let c := 2 * t in
     let r := 6371 in
     Return (Finite (c * r)))%res.

(** The distance as the specification words it: the sentinel when a
    coordinate is missing, the Haversine formula otherwise. *)
Definition deg2rad (x : R) : R := x * (PI / 180).

Definition haversine_a (lat1 lon1 lat2 lon2 : R) : R :=
  let dlat := lat2 - lat1 in
  let dlon := lon2 - lon1 in
  sin (dlat / 2) ^ 2 + cos lat1 * cos lat2 * sin (dlon / 2) ^ 2.

Definition haversine_km (lat1 lon1 lat2 lon2 : R) : R :=
  let a := haversine_a (deg2rad lat1) (deg2rad lon1) (deg2rad lat2) (deg2rad lon2) in
  let c := 2 * asin (sqrt a) in
  c * 6371.

Definition spec_distance (lat1 lon1 lat2 lon2 : option R) : pyfloat :=
  match lat1, lon1, lat2, lon2 with
  | Some la1, Some lo1, Some la2, Some lo2 => Finite (haversine_km la1 lo1 la2 lo2)
  | _, _, _, _ => Infinity
  end.

(** ** Strings and SQL [LIKE] *)

(** ASCII lower-casing, as SQLite's [lower()] and its [LIKE] operator fold
    case. *)
Definition ascii_lower (c : ascii) : ascii :=
  let n := N_of_ascii c in
  if ((65 <=? n) && (n <=? 90))%N then ascii_of_N (n + 32) else c.

Fixpoint lower (s : string) : string :=
  match s with
  | EmptyString => EmptyString
  | String c s' => String (ascii_lower c) (lower s')
  end.

(** SQLite reads a text as a C string: what follows the first NUL
    character is not looked at, neither in a pattern nor in the text it is
    matched against. *)
Fixpoint cut_nul (s : string) : string :=
  match s with
  | EmptyString => EmptyString
  | String c s' => if Ascii.eqb c zero then EmptyString else String c (cut_nul s')
  end.

(** Strings are the UTF-8 encodings of Python strings.  A character is one
    byte, or a lead byte (at least 0xC0) with the continuation bytes
    (0x80 to 0xBF) that follow it; this is how SQLite's [LIKE] steps through
    a text. *)
Definition is_continuation (c : ascii) : bool :=
  let n := N_of_ascii c in ((128 <=? n) && (n <? 192))%N.

Definition is_lead (c : ascii) : bool := (192 <=? N_of_ascii c)%N.

Fixpoint drop_continuation (t : string) : string :=
  match t with
  | EmptyString => EmptyString
  | String c t' => if is_continuation c then drop_continuation t' else t
  end.

(** What is left of the text [String c t'] after its first character. *)
Definition skip_char (c : ascii) (t' : string) : string :=
  if is_lead c then drop_continuation t' else t'.

(** The suffixes of a text that start at a character, the longest first and
    the empty one last.  [inside] tells that the bytes at the head may still
    continue the character before them. *)
Fixpoint suffixes_from (inside : bool) (t : string) : list string :=
  match t with
  | EmptyString => [EmptyString]
  | String c t' =>
      if inside && is_continuation c then suffixes_from true t'
      else t :: suffixes_from (is_lead c) t'
  end.

Definition char_suffixes (t : string) : list string := suffixes_from false t.

(** [like_match p t]: the text [t] matches the [LIKE] pattern [p], in which
    [%] stands for any run of characters and [_] for any one character; every
    other byte stands for itself.  No escape character is in force. *)
Fixpoint like_match (p : string) : string → bool :=
  match p with
  | EmptyString => λ t, match t with EmptyString => true | String _ _ => false end
  | String c p' =>
      if Ascii.eqb c "%"%char then
        λ t, existsb (like_match p') (char_suffixes t)
      else if Ascii.eqb c "_"%char then
        λ t, match t with
             | EmptyString => false
             | String d t' => like_match p' (skip_char d t')
             end
      else
        λ t, match t with
             | EmptyString => false
             | String d t' => Ascii.eqb c d && like_match p' t'
             end
  end.

(** [column.ilike(pattern)] on a nullable text column.  For SQLite, the
    database [main.py] configures by default, SQLAlchemy renders it as
    [lower(column) LIKE lower(pattern)]; a [NULL] column never matches. *)
Definition ilike (column : option string) (pattern : string) : bool :=
  match column with
  | None => false
  | Some t => like_match (cut_nul (lower pattern)) (cut_nul (lower t))
  end.

(** SQLite refuses a [LIKE] pattern of more than 50000 bytes, whatever the
    column holds: evaluating the operator is then an error. *)
Definition like_pattern_limit : N := 50000.

Definition sql_ilike (column : option string) (pattern : string) : result bool :=
  if (like_pattern_limit <? N.of_nat (String.length pattern))%N then
    Raise (OperationalError "LIKE or GLOB pattern too complex")
  else Return (ilike column pattern).

(** Substring containment, byte by byte. *)
Fixpoint is_prefix (p t : string) : bool :=
  match p, t with
  | EmptyString, _ => true
  | String c p', String d t' => Ascii.eqb c d && is_prefix p' t'
  | String _ _, EmptyString => false
  end.

Fixpoint is_substring (p t : string) : bool :=
  is_prefix p t
  || match t with EmptyString => false | String _ t' => is_substring p t' end.









(** ** The persistence layer *)

(** The integers SQLite stores and its driver binds: signed, 64 bits. *)
Definition in_int64 (z : Z) : bool := ((- 2 ^ 63 <=? z) && (z <? 2 ^ 63))%Z.

(** Modelled from the spec: the [Salon] and [Barber] classes live in
    [src/models/booking.py], which is not among the sources.  The interface
    lists the attributes the routes read (section 3 and section 6 of the
    specification: id, nullable floating-point latitude and longitude, city,
    country, approval flag) and leaves [to_dict] open.  The id is the
    integer primary key of a stored row, hence a signed 64-bit integer. *)
Class SalonModel (Salon : Type) : Type := {
  salon_id : Salon → Z;
  salon_id_int64 : ∀ s, in_int64 (salon_id s) = true;
  latitude : Salon → option R;
  longitude : Salon → option R;
  city : Salon → option string;
  country : Salon → option string;
  is_approved : Salon → bool;
  to_dict : Salon → gmap string pyval
}.

Class BarberModel (Barber : Type) : Type := {
  barber_id : Barber → Z;
  barber_salon_id : Barber → option Z;
  barber_name : Barber → pyval;
  barber_specialty : Barber → pyval
}.

Record DB (Salon Barber : Type) : Type := {
  salons : list Salon;
  barbers : list Barber
}.
Arguments salons {Salon Barber} _.
Arguments barbers {Salon Barber} _.

(** A [Salon.query] under construction: the conditions added so far. *)
Inductive cond : Type :=
  | IsApproved
  | CityILike (pattern : string)
  | CountryILike (pattern : string).

(** The pattern of a condition is within SQLite's limit. *)
Definition cond_short (c : cond) : Prop :=
  match c with
  | IsApproved => True
  | CityILike p | CountryILike p =>
      (N.of_nat (String.length p) <= like_pattern_limit)%N
  end.

(** The queries a handler issues. *)
Inductive query : Type :=
  | SalonAll (conds : list cond)
  | SalonGet (id : Z)
  | BarberAll (salon : Z).

(** An HTTP response: the JSON object handed to [jsonify] and the status. *)
Record response : Type := {
  body : gmap string pyval;
  status : Z
}.

Definition jsonify (d : gmap string pyval) (code : Z) : response :=
  {| body := d; status := code |}.

(** [str(e)] *)
Definition exn_str (e : exn) : string :=
  match e with
  | TypeError msg => msg
  | ValueError msg => msg
  | KeyError key => "'" +:+ key +:+ "'"
  | OverflowError msg => msg
  | OperationalError msg => msg
  end.

Definition py_opt_float (v : option R) : pyval :=
  match v with None => PyNone | Some x => PyFloat (Finite x) end.

Definition py_opt_str (v : option string) : pyval :=
  match v with None => PyNone | Some s => PyStr s end.

(** Truth value of an optional string: [None] and the empty string are false. *)
Definition truthy_str (v : option string) : bool :=
  match v with
  | None => false
  | Some EmptyString => false
  | Some (String _ _) => true
  end.

(** ** Handlers *)

Section Routes.
Context {Salon Barber : Type} `{SalonModel Salon} `{BarberModel Barber}.

(** A computation that reads the database: the queries issued, in order,
    and the value returned or the exception raised. *)
Definition M (A : Type) : Type := DB Salon Barber → list query * result A.

Definition ret {A} (a : A) : M A := λ _, ([], Return a).

Definition bind {A C} (m : M A) (k : A → M C) : M C :=
  λ db,
    match m db with
    | (log, Return a) => let '(log', r) := k a db in (log ++ log', r)
    | (log, Raise e) => (log, Raise e)
    end.

Definition lift {A} (r : result A) : M A := λ _, ([], r).

(** [try: ... except Exception as e: ...] *)
Definition try_except {A} (m : M A) (handler : exn → M A) : M A :=
  λ db,
    match m db with
    | (log, Return a) => (log, Return a)
    | (log, Raise e) => let '(log', r) := handler e db in (log ++ log', r)
    end.

(** [for x in l: acc = body(x, acc)] *)
Fixpoint for_each {A St} (l : list A) (body : A → St → M St) (acc : St) : M St :=
  match l with
  | [] => ret acc
  | x :: l' => bind (body x acc) (for_each l' body)
  end.

(** *** Queries *)

Definition cond_holds (c : cond) (s : Salon) : bool :=
  match c with
  | IsApproved => is_approved s
  | CityILike p => ilike (city s) p
  | CountryILike p => ilike (country s) p
  end.

Definition row_matches (cs : list cond) (s : Salon) : bool :=
  forallb (λ c, cond_holds c s) cs.

(** One condition on one row, as the database evaluates it. *)
Definition cond_eval (c : cond) (s : Salon) : result bool :=
  match c with
  | IsApproved => Return (is_approved s)
  | CityILike p => sql_ilike (city s) p
  | CountryILike p => sql_ilike (country s) p
  end.

(** The conditions of a query are tested on a row in the order in which
    they were added, up to the first one that does not hold. *)
Fixpoint row_eval (cs : list cond) (s : Salon) : result bool :=
  match cs with
  | [] => Return true
  | c :: cs' => rbind (cond_eval c s) (λ b, if b then row_eval cs' s else Return false)
  end.

(** The rows of a table that a list of conditions keeps, in table order; an
    error on one row is the error of the whole query. *)
Fixpoint select_rows (cs : list cond) (rows : list Salon) : result (list Salon) :=
  match rows with
  | [] => Return []
  | s :: rows' =>
      (keep <- row_eval cs s ;;
       rest <- select_rows cs rows' ;;
       Return (if keep then s :: rest else rest))%res
  end.

(** [query.all()]: the matching rows in table order. *)
Definition salon_all (cs : list cond) : M (list Salon) :=
  λ db, ([SalonAll cs], select_rows cs (salons db)).

(** Binding an integer parameter of a statement: the SQLite driver takes a
    signed 64-bit integer and raises [OverflowError] for any other. *)
Definition sql_int (id : Z) : result Z :=
  if in_int64 id then Return id
  else Raise (OverflowError "Python int too large to convert to SQLite INTEGER").

(** [Salon.query.get(id)]: the id is bound to the lookup, which returns the
    row with that primary key, or [None]. *)
Definition salon_get (id : Z) : M (option Salon) :=
  λ db,
    ([SalonGet id],
     (key <- sql_int id ;;
      Return (List.find (λ s, Z.eqb (salon_id s) key) (salons db)))%res).

(** [Barber.query.filter_by(salon_id=id).all()]: the id is bound in the
    same way. *)
Definition barber_all (id : Z) : M (list Barber) :=
  λ db,
    ([BarberAll id],
     (key <- sql_int id ;;
      Return (List.filter
                (λ b, match barber_salon_id b with
                      | Some i => Z.eqb i key
                      | None => false
                      end) (barbers db)))%res).

Notation "x <~ m ;; k" := (bind m (λ x, k))
  (at level 100, m at next level, right associativity).

(** *** [list.sort(key=...)] *)

(** Python's sort is stable and compares with [<] only.  The keys are
    computed first, one per element; an element is placed after every
    element that is not greater. *)
Fixpoint insert_by_key {A} (kx : pyfloat * A) (l : list (pyfloat * A)) : list (pyfloat * A) :=
  match l with
  | [] => [kx]
  | ky :: l' =>
      if pyfloat_ltb (fst kx) (fst ky) then kx :: ky :: l'
      else ky :: insert_by_key kx l'
  end.

Definition sort_keyed {A} (l : list (pyfloat * A)) : list (pyfloat * A) :=
  fold_left (λ acc kx, insert_by_key kx acc) l [].

Fixpoint decorate {A} (key : A → result pyfloat) (l : list A) : result (list (pyfloat * A)) :=
  match l with
  | [] => Return []
  | x :: l' =>
      (k <- key x ;;
       rest <- decorate key l' ;;
       Return ((k, x) :: rest))%res
  end.

Definition list_sort {A} (key : A → result pyfloat) (l : list A) : result (list A) :=
  (keyed <- decorate key l ;;
   Return (snd <$> sort_keyed keyed))%res.

(** [x['distance']] as a sort key: [KeyError] when the entry is absent.
    The keys the sort compares are the floats stored by line 47; a value of
    another type is reported as [TypeError]. *)
Definition distance_key (x : gmap string pyval) : result pyfloat :=
  match x !! "distance" with
  | None => Raise (KeyError "distance")
  | Some (PyFloat f) => Return f
  | Some _ => Raise (TypeError "'<' not supported between these instances")
  end.

(** [d.get(k, default)] *)
Definition dict_get {V} (d : gmap string V) (k : string) (dflt : V) : V :=
  default dflt (d !! k).

Definition py_len {A} (l : list A) : pyval := PyInt (Z.of_nat (length l)).

Definition error_body (msg : string) : gmap string pyval :=
  {[ "error" := PyStr msg ]}.

(** *** [POST /nearby] *)

(** [data] is the JSON object of the request.  Its values are numbers or
    [null], as the routing layer of the specification decodes them
    (section 6: latitude, longitude and radius are floats). *)

Definition get_nearby_salons (data : gmap string (option R)) : M response :=
  try_except
    (let user_lat := dict_get data "latitude" None in
     let user_lon := dict_get data "longitude" None in
     let radius := dict_get data "radius" (Some 50) in
     if negb (truthy user_lat) || negb (truthy user_lon) then
       ret (jsonify (error_body "User location (latitude and longitude) is required") 400)
     else
       salons <~ salon_all [IsApproved] ;;
       nearby_salons <~
         for_each salons
           (λ salon nearby_salons,
              if truthy (latitude salon) && truthy (longitude salon) then
                distance <~ lift (calculate_distance user_lat user_lon
                                    (latitude salon) (longitude salon)) ;;
                within <~ lift (py_le distance radius) ;;
                if within then
                  let salon_data := to_dict salon in
                  let salon_data :=
                    <["distance" := PyFloat (py_round2 distance)]> salon_data in
                  ret (nearby_salons ++ [salon_data])
                else ret nearby_salons
              else ret nearby_salons)
           [] ;;
       nearby_salons <~ lift (list_sort distance_key nearby_salons) ;;
       ret (jsonify
              {[ "salons" := PyList (PyDict <$> nearby_salons);
                 "total_count" := py_len nearby_salons;
                 "search_radius" := py_opt_float radius ]}
              200))
    (λ e, ret (jsonify (error_body (exn_str e)) 500)).

(** *** Barber enrichment (lines 80-83, 103-106, 128-130) *)

Definition barber_summary (b : Barber) : pyval :=
  PyDict {[ "id" := PyInt (barber_id b);
            "name" := barber_name b;
            "specialty" := barber_specialty b ]}.

(** The loop body shared by [/by_city] and [/all]. *)
Definition append_with_barbers (salon : Salon) (salon_list : list (gmap string pyval))
  : M (list (gmap string pyval)) :=
  let salon_data := to_dict salon in
  barbers <~ barber_all (salon_id salon) ;;
  let salon_data := <["barbers" := PyList (barber_summary <$> barbers)]> salon_data in
  ret (salon_list ++ [salon_data]).

(** *** [GET /by_city] *)

(** [f'%{city}%'] *)
Definition like_pattern (v : option string) : string :=
  "%" +:+ default "None" v +:+ "%".

Definition get_salons_by_city (args : gmap string string) : M response :=
  try_except
    (let city := args !! "city" in
     let country := args !! "country" in
     let query := [IsApproved] in
     let query :=
       if truthy_str city then query ++ [CityILike (like_pattern city)] else query in
     let query :=
       if truthy_str country then query ++ [CountryILike (like_pattern country)]
       else query in
     salons <~ salon_all query ;;
     salon_list <~ for_each salons append_with_barbers [] ;;
     ret (jsonify
            {[ "salons" := PyList (PyDict <$> salon_list);
               "total_count" := py_len salon_list;
               "filters" := PyDict {[ "city" := py_opt_str city;
                                      "country" := py_opt_str country ]} ]}
            200))
    (λ e, ret (jsonify (error_body (exn_str e)) 500)).

(** *** [GET /all] *)

Definition get_all_salons : M response :=
  try_except
    (salons <~ salon_all [IsApproved] ;;
     salon_list <~ for_each salons append_with_barbers [] ;;
     ret (jsonify
            {[ "salons" := PyList (PyDict <$> salon_list);
               "total_count" := py_len salon_list ]}
            200))
    (λ e, ret (jsonify (error_body (exn_str e)) 500)).

(** *** [GET /<int:salon_id>] *)

Definition get_salon_details (requested_id : Z) : M response :=
  try_except
    (salon <~ salon_get requested_id ;;
     match salon with
     | None => ret (jsonify (error_body "Salon not found") 404)
     | Some salon =>
         if negb (is_approved salon) then
           ret (jsonify (error_body "Salon is not approved") 403)
         else
           let salon_data := to_dict salon in
           barbers <~ barber_all (salon_id salon) ;;
           let salon_data :=
             <["barbers" := PyList (barber_summary <$> barbers)]> salon_data in
           ret (jsonify {[ "salon" := PyDict salon_data ]} 200)
     end)
    (λ e, ret (jsonify (error_body (exn_str e)) 500)).

(** *** Reading the handlers' results *)

(** The loops in pure form.  [fold_result] runs a loop body that may raise
    over a list; the bodies below are those of the handlers without the
    query log. *)
Fixpoint fold_result {A St} (f : A → St → result St) (l : list A) (acc : St) : result St :=
  match l with
  | [] => Return acc
  | x :: l' => rbind (f x acc) (fold_result f l')
  end.

(** The body of the loop of lines 42-48. *)
Definition nearby_step (user_lat user_lon radius : option R)
    (salon : Salon) (nearby_salons : list (gmap string pyval))
  : result (list (gmap string pyval)) :=
  if truthy (latitude salon) && truthy (longitude salon) then
    (distance <- calculate_distance user_lat user_lon
                   (latitude salon) (longitude salon) ;;
     within <- py_le distance radius ;;
     if within then
       Return (nearby_salons
               ++ [<["distance" := PyFloat (py_round2 distance)]> (to_dict salon)])
     else Return nearby_salons)%res
  else Return nearby_salons.

(** The distance line 44 computes for a salon. *)
Definition computed_distance (user_lat user_lon : option R) (salon : Salon) : result pyfloat :=
  calculate_distance user_lat user_lon (latitude salon) (longitude salon).

Definition distance_value (user_lat user_lon : option R) (salon : Salon) : pyfloat :=
  match computed_distance user_lat user_lon salon with
  | Return d => d
  | Raise _ => Infinity
  end.

(** The serialized view with the rounded distance attached (lines 46-47). *)
Definition annotate (user_lat user_lon : option R) (salon : Salon) : gmap string pyval :=
  <["distance" := PyFloat (py_round2 (distance_value user_lat user_lon salon))]>
    (to_dict salon).

(** Eligibility as the specification defines it: approved, and both
    coordinates not null. *)
Definition eligible (salon : Salon) : bool :=
  is_approved salon
  && bool_decide (is_Some (latitude salon))
  && bool_decide (is_Some (longitude salon)).

(** The test of line 45 on the distance that line 44 computes: what
    [calculate_distance] returns is at most the radius. *)
Definition within_radius (user_lat user_lon : option R) (radius : R) (salon : Salon) : bool :=
  match computed_distance user_lat user_lon salon with
  | Return d => pyfloat_leb d (Finite radius)
  | Raise _ => false
  end.

(** The salons the loop of lines 42-48 keeps, in table order: the eligible
    ones that pass the test of line 45.  With a radius of [None] no salon
    passes. *)
Definition nearby_keep (user_lat user_lon radius : option R) (salon : Salon) : bool :=
  eligible salon
  && match radius with
     | Some r => within_radius user_lat user_lon r salon
     | None => false
     end.

Definition nearby_kept (user_lat user_lon radius : option R) (db : DB Salon Barber)
  : list Salon :=
  List.filter (nearby_keep user_lat user_lon radius) (salons db).

(** The same salons as the response lists them: annotated, then sorted by
    the rounded distance. *)
Definition keyed_entry (user_lat user_lon : option R) (salon : Salon)
  : pyfloat * gmap string pyval :=
  (py_round2 (distance_value user_lat user_lon salon),
   annotate user_lat user_lon salon).

Definition nearby_sorted (user_lat user_lon radius : option R) (db : DB Salon Barber)
  : list (gmap string pyval) :=
  snd <$> sort_keyed
            (keyed_entry user_lat user_lon <$> nearby_kept user_lat user_lon radius db).

(** The salons of a response: the list under ["salons"], empty when the
    response carries none. *)
Definition response_salons (r : response) : list pyval :=
  match body r !! "salons" with
  | Some (PyList l) => l
  | _ => []
  end.

(** The attached distance of a result entry. *)
Definition entry_distance (e : pyval) : option pyfloat :=
  match e with
  | PyDict d =>
      match d !! "distance" with
      | Some (PyFloat f) => Some f
      | _ => None
      end
  | _ => None
  end.

(** The barbers of a salon and the enriched view (lines 79-83). *)
Definition barbers_of (db : DB Salon Barber) (id : Z) : list Barber :=
  List.filter
    (λ b, match barber_salon_id b with Some i => Z.eqb i id | None => false end)
    (barbers db).

Definition with_barbers (db : DB Salon Barber) (salon : Salon) : gmap string pyval :=
  <["barbers" := PyList (barber_summary <$> barbers_of db (salon_id salon))]>
    (to_dict salon).

(** What the two listing handlers compute for a list of conditions: the
    queries issued and the enriched views of the matching rows. *)
Definition listing_run (conds : list cond) (db : DB Salon Barber)
  : list query * list (gmap string pyval) :=
  let rows := List.filter (row_matches conds) (salons db) in
  (SalonAll conds :: ((λ s, BarberAll (salon_id s)) <$> rows),
   with_barbers db <$> rows).

(** The conditions lines 68-73 put on the query. *)
Definition by_city_conds (city country : option string) : list cond :=
  let query := [IsApproved] in
  let query :=
    if truthy_str city then query ++ [CityILike (like_pattern city)] else query in
  if truthy_str country then query ++ [CountryILike (like_pattern country)]
  else query.



End Routes.

Definition pyfloat_eqb (x y : pyfloat) : bool :=
  match x, y with
  | Finite a, Finite b => if Req_dec_T a b then true else false
  | Infinity, Infinity => true
  | _, _ => false
  end.

(** Keyed elements: the order the sort establishes, and the elements with
    one key, in order. *)
Definition key_le {A} (p q : pyfloat * A) : Prop := pyfloat_le p.1 q.1.

Definition at_key {A} (k : pyfloat) (l : list (pyfloat * A)) : list (pyfloat * A) :=
  List.filter (λ p, pyfloat_eqb p.1 k) l.

(** The entries of a result list that carry the distance [k], in order. *)
Definition entries_at (k : pyfloat) (l : list pyval) : list pyval :=
  List.filter
    (λ e, match entry_distance e with Some f => pyfloat_eqb f k | None => false end) l.

(** Every pair carries as key the distance stored in its dictionary. *)
Definition keys_agree (l : list (pyfloat * gmap string pyval)) : Prop :=
  Forall (λ p, entry_distance (PyDict p.2) = Some p.1) l.

(** ** A concrete schema *)

(** Modelled from the spec: rows with exactly the columns section 6 of the
    specification lists for the persistence collaborator, serialized to a
    mapping of those columns.  They serve as concrete inputs. *)
Record salon_row : Type := SalonRow {
  row_id : Z;
  row_latitude : option R;
  row_longitude : option R;
  row_city : option string;
  row_country : option string;
  row_is_approved : bool;
  row_id_int64 : TCEq (in_int64 row_id) true
}.
Arguments SalonRow _ _ _ _ _ _ {_}.

Record barber_row : Type := BarberRow {
  brow_id : Z;
  brow_salon_id : option Z;
  brow_name : string;
  brow_specialty : string
}.

#[export] Instance salon_row_model : SalonModel salon_row := {|
  salon_id := row_id;
  salon_id_int64 := λ s, proj1 (TCEq_eq _ _) (row_id_int64 s);
  latitude := row_latitude;
  longitude := row_longitude;
  city := row_city;
  country := row_country;
  is_approved := row_is_approved;
  to_dict := λ s,
    {[ "id" := PyInt (row_id s);
       "city" := py_opt_str (row_city s);
       "country" := py_opt_str (row_country s);
       "latitude" := py_opt_float (row_latitude s);
       "longitude" := py_opt_float (row_longitude s);
       "is_approved" := PyBool (row_is_approved s) ]}
|}.

#[export] Instance barber_row_model : BarberModel barber_row := {|
  barber_id := brow_id;
  barber_salon_id := brow_salon_id;
  barber_name := λ b, PyStr (brow_name b);
  barber_specialty := λ b, PyStr (brow_specialty b)
|}.

(** ** Example data *)

(** Salons in and around Cairo, one of them not approved, and two barbers. *)
Definition cairo_db : DB salon_row barber_row := {|
  salons :=
    [ SalonRow 1 (Some 30) (Some 31.2) (Some "Cairo") (Some "Egypt") true;
      SalonRow 2 (Some 30.1) (Some 31.3) (Some "New Cairo") (Some "Egypt") true;
      SalonRow 3 None None (Some "CAIRO") (Some "EGYPT") true;
      SalonRow 4 (Some 30) (Some 31.2) (Some "Giza") (Some "Egypt") true;
      SalonRow 5 (Some 30) (Some 31.2) (Some "Cairo") (Some "Egypt") false ];
  barbers :=
    [ BarberRow 1 (Some 1%Z) "Omar" "Fade";
      BarberRow 2 (Some 4%Z) "Ali" "Beard" ]
|}.

(** The scenario of section 8 of the specification: four salons, a user at
    (30.0, 31.2) and a radius of 50 km. *)
Definition scenario_db : DB salon_row barber_row := {|
  salons :=
    [ SalonRow 1 (Some 30) (Some 31.2) None None true;
      SalonRow 2 (Some 30.1) (Some 31.3) None None true;
      SalonRow 3 (Some 35) (Some 40) None None true;
      SalonRow 4 (Some 30) (Some 31.2) None None false ];
  barbers := []
|}.

(** A salon on the equator, 0.1 degrees of latitude south of a user who
    searches within 50 km. *)
Definition equator_db : DB salon_row barber_row := {|
  salons := [ SalonRow 1 (Some 0) (Some 31.2) None None true ];
  barbers := []
|}.

Definition equator_request : gmap string (option R) :=
  {[ "latitude" := Some 0.1; "longitude" := Some 31.2; "radius" := Some 50 ]}.




Definition scenario_request : gmap string (option R) :=
  {[ "latitude" := Some 30; "longitude" := Some 31.2; "radius" := Some 50 ]}.

(** ** [ai_routes.py]: hairstyle suggestions *)

(** A list or a dict is not hashable and cannot be looked up in a dict. *)
Definition hashable (v : pyval) : bool :=
  match v with
  | PyList _ | PyDict _ => false
  | _ => true
  end.

(** [d.get(key, default)] on a dict with string keys, for a key that is any
    Python value: an unhashable key raises [TypeError], a key that is not a
    string equals none of the keys. *)
Definition dict_get_py {V} (d : gmap string V) (key : pyval) (dflt : V) : result V :=
  match key with
  | PyStr s => Return (default dflt (d !! s))
  | PyList _ => Raise (TypeError "unhashable type: 'list'")
  | PyDict _ => Raise (TypeError "unhashable type: 'dict'")
  | _ => Return dflt
  end.

(** [d[k]] *)
Definition dict_getitem {V} (d : gmap string V) (k : string) : result V :=
  match d !! k with
  | Some v => Return v
  | None => Raise (KeyError k)
  end.

(** The table of lines 95-117. *)
Definition suggestions : gmap string (gmap string (list string)) :=
  {[ "male" :=
       {[ "oval" := ["Fade Cut"; "Pompadour"; "Quiff"; "Side Part"; "Buzz Cut"];
          "round" := ["High Fade"; "Angular Fringe"; "Side Swept"; "Textured Crop"];
          "square" := ["Messy Quiff"; "Slicked Back"; "Crew Cut"; "Undercut"];
          "heart" := ["Textured Fringe"; "Side Part"; "Layered Cut"; "Caesar Cut"];
          "long" := ["Voluminous Top"; "Side Swept Bangs"; "Layered Style";
                     "Textured Crop"] ]};
     "female" :=
       {[ "oval" := ["Long Layers"; "Bob Cut"; "Pixie Cut"; "Beach Waves";
                     "Straight Lob"];
          "round" := ["Long Straight"; "Side Swept Bangs"; "Asymmetrical Bob";
                      "High Ponytail"];
          "square" := ["Soft Waves"; "Side Part"; "Layered Cut"; "Curtain Bangs"];
          "heart" := ["Chin Length Bob"; "Side Swept"; "Full Bangs"; "Textured Lob"];
          "long" := ["Voluminous Curls"; "Blunt Bangs"; "Layered Waves"; "High Bun"] ]};
     "unisex" :=
       {[ "oval" := ["Modern Cut"; "Layered Style"; "Textured Look"; "Classic Style"];
          "round" := ["Angular Cut"; "Side Swept"; "Structured Style"; "Defined Lines"];
          "square" := ["Soft Layers"; "Rounded Cut"; "Flowing Style"; "Gentle Waves"];
          "heart" := ["Balanced Cut"; "Side Part"; "Textured Style"; "Natural Flow"];
          "long" := ["Voluminous Style"; "Layered Cut"; "Textured Look";
                     "Dynamic Style"] ]} ]}.

Definition get_hairstyle_suggestions (gender face_shape : pyval) : result (list string) :=
  (unisex <- dict_getitem suggestions "unisex" ;;
   by_gender <- dict_get_py suggestions gender unisex ;;
   unisex <- dict_getitem suggestions "unisex" ;;
   oval <- dict_getitem unisex "oval" ;;
   dict_get_py by_gender face_shape oval)%res.

(** [POST /get_suggestions].  [data] is the JSON object of the request. *)
Definition get_suggestions (data : gmap string pyval) : response :=
  match
    (let gender := dict_get data "gender" (PyStr "unisex") in
     let face_shape := dict_get data "face_shape" (PyStr "oval") in
     suggestions <- get_hairstyle_suggestions gender face_shape ;;
     Return (jsonify
               {[ "suggestions" := PyList (PyStr <$> suggestions);
                  "gender" := gender;
                  "face_shape" := face_shape ]}
               200))%res
  with
  | Return r => r
  | Raise e => jsonify (error_body (exn_str e)) 500
  end.

(** The genders and face shapes the table knows. *)
Definition known_gender (v : pyval) : bool :=
  match v with
  | PyStr s => bool_decide (s ∈ ["male"; "female"; "unisex"])
  | _ => false
  end.

Definition known_face_shape (v : pyval) : bool :=
  match v with
  | PyStr s => bool_decide (s ∈ ["oval"; "round"; "square"; "heart"; "long"])
  | _ => false
  end.

(** The three rows of the table: each has the five face shapes, with four or
    five names each. *)
Definition row_ok (row : gmap string (list string)) : Prop :=
  (∀ s, s ∉ ["oval"; "round"; "square"; "heart"; "long"] → row !! s = None)
  ∧ (∀ s l, row !! s = Some l → (4 <= length l <= 5)%nat).

(** ** [main.py]: the catch-all route *)

(** [os.path.join(a, b)] on POSIX. *)
Definition path_join (a b : string) : string :=
  match b with
  | String "/" _ => b
  | _ =>
      match a with
      | EmptyString => b
      | _ =>
          if String.eqb (String.substring (String.length a - 1) 1 a) "/"
          then a +:+ b
          else a +:+ "/" +:+ b
      end
  end.

(** What [serve] returns: a text with a status, or what
    [send_from_directory(directory, path)] makes of a directory and a path. *)
Inductive served : Type :=
  | Plain (text : string) (code : Z)
  | SendFromDirectory (directory path : string).

Section Serve.
(** [app.static_folder] and the state of the file system as
    [os.path.exists] reports it. *)
Context (static_folder_path : string) (path_exists : string → bool).

Definition serve (path : string) : served :=
  if match static_folder_path with EmptyString => true | _ => false end
     || negb (path_exists static_folder_path)
  then Plain "Static folder not configured" 404
  else if match path with EmptyString => false | _ => true end
          && path_exists (path_join static_folder_path path)
  then SendFromDirectory static_folder_path path
  else if path_exists (path_join static_folder_path "index.html")
  then SendFromDirectory static_folder_path "index.html"
  else Plain "index.html not found" 404.
End Serve.

(** A deployment with a static folder that holds the front end. *)
Definition example_files (p : string) : bool :=
  bool_decide (p ∈ ["/app/static"; "/app/static/index.html"; "/app/static/logo.png"]).

(** * Properties *)

(** ** Arithmetic of the Haversine expression *)

Lemma sin_half_sq (x : R) : sin (x / 2) ^ 2 = (1 - cos x) / 2.
Proof.
  replace x with (2 * (x / 2)) at 2 by lra.
  rewrite cos_2a_sin. lra.
Qed.

Lemma haversine_a_alt (lat1 lon1 lat2 lon2 : R) :
  haversine_a lat1 lon1 lat2 lon2 =
  (1 - cos lat1 * cos lat2 - sin lat1 * sin lat2) / 2
  + cos lat1 * cos lat2 * sin ((lon2 - lon1) / 2) ^ 2.
Proof.
  unfold haversine_a. cbv zeta.
  rewrite (sin_half_sq (lat2 - lat1)), cos_minus. lra.
Qed.

Lemma convex_bound (p q h lo hi : R) :
  0 <= h <= 1 → lo <= p <= hi → lo <= q <= hi → lo <= (1 - h) * p + h * q <= hi.
Proof. intros Hh Hp Hq. nra. Qed.

(** The argument of [sqrt] lies in [[0, 1]] whatever the four angles are: it
    is a mean of [(1 - cos (lat1 - lat2)) / 2] and [(1 + cos (lat1 + lat2)) / 2]. *)
Lemma haversine_a_range (lat1 lon1 lat2 lon2 : R) :
  0 <= haversine_a lat1 lon1 lat2 lon2 <= 1.
Proof.
  rewrite haversine_a_alt.
  set (h := sin ((lon2 - lon1) / 2) ^ 2).
  assert (Hh : 0 <= h <= 1).
  { unfold h. pose proof (SIN_bound ((lon2 - lon1) / 2)). nra. }
  pose proof (sin2_cos2 lat1) as H1. pose proof (sin2_cos2 lat2) as H2.
  unfold Rsqr in H1, H2.
  set (c1 := cos lat1) in *. set (c2 := cos lat2) in *.
  set (s1 := sin lat1) in *. set (s2 := sin lat2) in *.
  replace ((1 - c1 * c2 - s1 * s2) / 2 + c1 * c2 * h)
    with ((1 - h) * ((1 - c1 * c2 - s1 * s2) / 2)
          + h * ((1 + c1 * c2 - s1 * s2) / 2)) by lra.
  pose proof (Rle_0_sqr (c1 - c2)). pose proof (Rle_0_sqr (s1 - s2)).
  pose proof (Rle_0_sqr (c1 + c2)). pose proof (Rle_0_sqr (s1 + s2)).
  unfold Rsqr in *.
  apply convex_bound; [exact Hh | lra | lra].
Qed.

Lemma sqrt_unit_range (a : R) : 0 <= a <= 1 → 0 <= sqrt a <= 1.
Proof.
  intros [H0 H1]. split; [apply sqrt_pos |].
  rewrite <- sqrt_1. apply sqrt_le_1_alt. exact H1.
Qed.

Lemma asin_nonneg (x : R) : 0 <= x <= 1 → 0 <= asin x.
Proof.
  intros [H0 H1].
  destruct (Rle_lt_dec 0 (asin x)) as [Hle | Hlt]; [exact Hle |].
  pose proof (asin_bound x) as [Hlo _].
  assert (Hs : sin (asin x) < 0) by (apply sin_lt_0_var; lra).
  rewrite sin_asin in Hs by lra. lra.
Qed.

Lemma haversine_a_sym (lat1 lon1 lat2 lon2 : R) :
  haversine_a lat1 lon1 lat2 lon2 = haversine_a lat2 lon2 lat1 lon1.
Proof.
  unfold haversine_a. cbv zeta.
  replace ((lat1 - lat2) / 2) with (- ((lat2 - lat1) / 2)) by lra.
  replace ((lon1 - lon2) / 2) with (- ((lon2 - lon1) / 2)) by lra.
  rewrite !sin_antisym. lra.
Qed.

Lemma haversine_a_same (lat lon : R) : haversine_a lat lon lat lon = 0.
Proof.
  unfold haversine_a. cbv zeta.
  replace ((lat - lat) / 2) with 0 by lra.
  replace ((lon - lon) / 2) with 0 by lra.
  rewrite sin_0. lra.
Qed.

Lemma haversine_km_nonneg (lat1 lon1 lat2 lon2 : R) :
  0 <= haversine_km lat1 lon1 lat2 lon2.
Proof.
  unfold haversine_km. cbv zeta.
  pose proof (asin_nonneg _ (sqrt_unit_range _ (haversine_a_range
    (deg2rad lat1) (deg2rad lon1) (deg2rad lat2) (deg2rad lon2)))).
  lra.
Qed.

(** ** [calculate_distance] *)

Lemma truthy_Some (x : R) : truthy (Some x) = true ↔ x ≠ 0.
Proof. unfold truthy. destruct (Req_dec_T x 0); split; intros; congruence. Qed.

Lemma truthy_is_Some (v : option R) :
  truthy v = true → ∃ x, v = Some x ∧ x ≠ 0.
Proof.
  destruct v as [x |]; [| discriminate].
  intros Hx. exists x. split; [reflexivity | by apply truthy_Some].
Qed.

Lemma math_sqrt_ok (a : R) : 0 <= a → math_sqrt a = Return (sqrt a).
Proof. intros Ha. unfold math_sqrt. destruct (Rlt_dec a 0); [lra | reflexivity]. Qed.

Lemma math_asin_ok (x : R) : -1 <= x <= 1 → math_asin x = Return (asin x).
Proof.
  intros Hx. unfold math_asin.
  destruct (Rlt_dec x (-1)); [lra |]. destruct (Rlt_dec 1 x); [lra | reflexivity].
Qed.

(** What the function returns on every input: the sentinel as soon as one
    argument is [None] or zero, the Haversine distance otherwise.  In
    particular it never raises. *)
Lemma calculate_distance_eq (lat1 lon1 lat2 lon2 : option R) :
  calculate_distance lat1 lon1 lat2 lon2 =
  Return (if py_all [lat1; lon1; lat2; lon2]
          then spec_distance lat1 lon1 lat2 lon2
          else Infinity).
Proof.
  unfold calculate_distance.
  destruct (py_all [lat1; lon1; lat2; lon2]) eqn:Hall; [| reflexivity].
  cbn [negb]. unfold py_all in Hall. cbn [forallb] in Hall.
  repeat (apply andb_prop in Hall as [? Hall]).
  destruct lat1 as [la1 |], lon1 as [lo1 |], lat2 as [la2 |], lon2 as [lo2 |];
    try discriminate.
  cbn [math_radians rbind spec_distance].
  pose proof (haversine_a_range (deg2rad la1) (deg2rad lo1) (deg2rad la2) (deg2rad lo2))
    as Ha.
  unfold haversine_a, deg2rad in Ha. cbv zeta in Ha.
  rewrite math_sqrt_ok by lra. cbn [rbind].
  pose proof (sqrt_unit_range _ Ha) as Hs.
  rewrite math_asin_ok by lra. cbn [rbind].
  reflexivity.
Qed.

Lemma calculate_distance_no_raise (lat1 lon1 lat2 lon2 : option R) :
  ∃ d, calculate_distance lat1 lon1 lat2 lon2 = Return d.
Proof. rewrite calculate_distance_eq. eauto. Qed.

Lemma haversine_km_sym (lat1 lon1 lat2 lon2 : R) :
  haversine_km lat1 lon1 lat2 lon2 = haversine_km lat2 lon2 lat1 lon1.
Proof. unfold haversine_km. cbv zeta. by rewrite haversine_a_sym. Qed.

Lemma haversine_km_same (lat lon : R) : haversine_km lat lon lat lon = 0.
Proof.
  unfold haversine_km. cbv zeta. rewrite haversine_a_same, sqrt_0, asin_0. lra.
Qed.

(** Two points on one meridian, at most 180 degrees of latitude apart: the
    distance is the arc between them. *)
Lemma haversine_km_meridian (lat1 lat2 lon : R) :
  lat1 <= lat2 <= lat1 + 180 →
  haversine_km lat1 lon lat2 lon = (lat2 - lat1) * (PI / 180) * 6371.
Proof.
  intros Hlat. unfold haversine_km, haversine_a, deg2rad. cbv zeta.
  pose proof PI_RGT_0 as Hpi.
  replace ((lon * (PI / 180) - lon * (PI / 180)) / 2) with 0 by lra.
  rewrite sin_0.
  set (x := (lat2 * (PI / 180) - lat1 * (PI / 180)) / 2).
  assert (Hx : 0 <= x <= PI / 2) by (unfold x; split; nra).
  assert (Hsin : 0 <= sin x) by (apply sin_ge_0; lra).
  replace (sin x ^ 2 + cos (lat1 * (PI / 180)) * cos (lat2 * (PI / 180)) * 0 ^ 2)
    with (Rsqr (sin x)) by (unfold Rsqr; lra).
  rewrite sqrt_Rsqr by exact Hsin.
  rewrite asin_sin by lra.
  unfold x. lra.
Qed.

Lemma truthy_zero : truthy (Some 0) = false.
Proof. unfold truthy. destruct (Req_dec_T 0 0); [reflexivity | lra]. Qed.

Lemma py_all_comm (lat1 lon1 lat2 lon2 : option R) :
  py_all [lat1; lon1; lat2; lon2] = py_all [lat2; lon2; lat1; lon1].
Proof.
  unfold py_all. cbn [forallb].
  destruct (truthy lat1), (truthy lon1), (truthy lat2), (truthy lon2); reflexivity.
Qed.

(** The order of the two points does not matter. *)
Lemma calculate_distance_sym (lat1 lon1 lat2 lon2 : option R) :
  calculate_distance lat1 lon1 lat2 lon2 = calculate_distance lat2 lon2 lat1 lon1.
Proof.
  rewrite !calculate_distance_eq, (py_all_comm lat1 lon1 lat2 lon2).
  destruct (py_all [lat2; lon2; lat1; lon1]); [| reflexivity].
  destruct lat1, lon1, lat2, lon2; cbn [spec_distance]; try reflexivity.
  by rewrite haversine_km_sym.
Qed.

(** The result is never negative. *)
Lemma calculate_distance_nonneg (lat1 lon1 lat2 lon2 : option R) (d : pyfloat) :
  calculate_distance lat1 lon1 lat2 lon2 = Return d → pyfloat_le (Finite 0) d.
Proof.
  rewrite calculate_distance_eq.
  destruct (py_all [lat1; lon1; lat2; lon2]); intros [= <-]; [| exact I].
  destruct lat1, lon1, lat2, lon2; cbn [spec_distance pyfloat_le]; try exact I.
  apply haversine_km_nonneg.
Qed.

(** A point with two non-zero coordinates is at distance zero from itself. *)
Lemma calculate_distance_same (lat lon : R) :
  lat ≠ 0 → lon ≠ 0 →
  calculate_distance (Some lat) (Some lon) (Some lat) (Some lon) = Return (Finite 0).
Proof.
  intros Hlat Hlon. rewrite calculate_distance_eq.
  unfold py_all. cbn [forallb].
  rewrite !(proj2 (truthy_Some _)) by assumption.
  cbn [andb spec_distance]. by rewrite haversine_km_same.
Qed.

(** With four non-zero coordinates the function returns the Haversine
    distance of the specification; with a missing one, the sentinel. *)
Lemma calculate_distance_nonzero (la1 lo1 la2 lo2 : R) :
  la1 ≠ 0 → lo1 ≠ 0 → la2 ≠ 0 → lo2 ≠ 0 →
  calculate_distance (Some la1) (Some lo1) (Some la2) (Some lo2)
  = Return (Finite (haversine_km la1 lo1 la2 lo2)).
Proof.
  intros. rewrite calculate_distance_eq. unfold py_all. cbn [forallb].
  by rewrite !(proj2 (truthy_Some _)) by assumption.
Qed.

Lemma calculate_distance_missing (lat1 lon1 lat2 lon2 : option R) :
  lat1 = None ∨ lon1 = None ∨ lat2 = None ∨ lon2 = None →
  calculate_distance lat1 lon1 lat2 lon2 = Return Infinity.
Proof.
  intros Hm. rewrite calculate_distance_eq.
  destruct (py_all [lat1; lon1; lat2; lon2]); [| reflexivity].
  destruct lat1, lon1, lat2, lon2; cbn [spec_distance]; try reflexivity.
  destruct Hm as [? | [? | [? | ?]]]; discriminate.
Qed.

(** C2, at the input (0.0, 10.0) - (5.0, 10.0).  All four coordinates are
    present and the two points lie five degrees apart on one meridian, so the
    Haversine distance of the specification is the finite arc
    5 * pi / 180 * 6371 km (about 556 km).  The function returns the infinite
    sentinel instead: its test [not all([...])] also rejects a coordinate
    that is zero. *)
Theorem calculate_distance_zero_latitude :
  calculate_distance (Some 0) (Some 10) (Some 5) (Some 10) = Return Infinity
  ∧ spec_distance (Some 0) (Some 10) (Some 5) (Some 10)
    = Finite (5 * (PI / 180) * 6371).
Proof.
  split.
  - rewrite calculate_distance_eq. unfold py_all. cbn [forallb].
    by rewrite truthy_zero.
  - cbn [spec_distance]. rewrite haversine_km_meridian by lra. f_equal. lra.
Qed.

(** C6, at the point A = (0.0, 31.2).  A is a valid pair of coordinates and
    the Haversine distance from A to A is zero, but the function returns the
    infinite sentinel: the zero latitude is taken for a missing one. *)
Theorem calculate_distance_equator_self :
  calculate_distance (Some 0) (Some 31.2) (Some 0) (Some 31.2) = Return Infinity
  ∧ spec_distance (Some 0) (Some 31.2) (Some 0) (Some 31.2) = Finite 0.
Proof.
  split.
  - rewrite calculate_distance_eq. unfold py_all. cbn [forallb].
    by rewrite truthy_zero.
  - cbn [spec_distance]. by rewrite haversine_km_same.
Qed.

(** ** The order on floats *)

Lemma pyfloat_ltb_lt (x y : pyfloat) : pyfloat_ltb x y = true ↔ pyfloat_lt x y.
Proof.
  destruct x as [a |], y as [b |]; cbn; try (split; [done | done]).
  destruct (Rlt_dec a b); split; intros; done.
Qed.

Lemma pyfloat_leb_le (x y : pyfloat) : pyfloat_leb x y = true ↔ pyfloat_le x y.
Proof.
  destruct x as [a |], y as [b |]; cbn; try (split; [done | done]).
  destruct (Rle_dec a b); split; intros; done.
Qed.

Lemma pyfloat_eqb_eq (x y : pyfloat) : pyfloat_eqb x y = true ↔ x = y.
Proof.
  destruct x as [a |], y as [b |]; cbn; try (split; [done | done]).
  destruct (Req_dec_T a b); split; intros; try done; congruence.
Qed.

Lemma pyfloat_le_refl (x : pyfloat) : pyfloat_le x x.
Proof. destruct x; cbn; [lra | exact I]. Qed.

Lemma pyfloat_le_trans (x y z : pyfloat) :
  pyfloat_le x y → pyfloat_le y z → pyfloat_le x z.
Proof. destruct x, y, z; cbn; try done. lra. Qed.

Lemma pyfloat_lt_le (x y : pyfloat) : pyfloat_lt x y → pyfloat_le x y.
Proof. destruct x, y; cbn; try done. lra. Qed.

Lemma pyfloat_not_lt_le (x y : pyfloat) : ¬ pyfloat_lt x y → pyfloat_le y x.
Proof. destruct x, y; cbn; try done; try tauto. lra. Qed.

Lemma pyfloat_lt_neq (x y : pyfloat) : pyfloat_lt x y → x ≠ y.
Proof. destruct x, y; cbn; try done. intros Hlt [= ->]. lra. Qed.

Lemma pyfloat_le_lt_trans (x y z : pyfloat) :
  pyfloat_le x y → pyfloat_lt y z → pyfloat_lt x z.
Proof. destruct x, y, z; cbn; try done. lra. Qed.

(** ** [list.sort]: sorted, a permutation, stable *)

Section Sorting.
Context {A : Type}.
Implicit Types (l : list (pyfloat * A)) (kx : pyfloat * A) (k : pyfloat).

Lemma filter_none (f : pyfloat * A → bool) l :
  (∀ q, In q l → f q = false) → List.filter f l = [].
Proof.
  induction l as [| q l IH]; intros Hf; cbn; [done |].
  rewrite (Hf q) by by left. apply IH. intros q' Hq'. apply Hf. by right.
Qed.

Lemma insert_by_key_perm kx l : insert_by_key kx l ≡ₚ kx :: l.
Proof.
  induction l as [| ky l IH]; cbn; [done |].
  destruct (pyfloat_ltb kx.1 ky.1); [done |].
  rewrite IH. apply Permutation_swap.
Qed.

Lemma insert_by_key_sorted kx l :
  StronglySorted key_le l → StronglySorted key_le (insert_by_key kx l).
Proof.
  induction 1 as [| ky l Hs IH Hall]; cbn.
  - repeat constructor.
  - destruct (pyfloat_ltb kx.1 ky.1) eqn:Hlt.
    + apply pyfloat_ltb_lt, pyfloat_lt_le in Hlt.
      constructor; [by constructor |].
      constructor; [exact Hlt |].
      eapply Forall_impl; [exact Hall |].
      intros q Hq. unfold key_le in *. by eapply pyfloat_le_trans.
    + assert (Hge : key_le ky kx).
      { apply pyfloat_not_lt_le. intros Hc. apply pyfloat_ltb_lt in Hc. congruence. }
      constructor; [exact IH |].
      rewrite insert_by_key_perm. by constructor.
Qed.

(** Where the new element lands among the elements with its own key: after
    all of them. *)
Lemma insert_by_key_at_key kx l k :
  StronglySorted key_le l →
  at_key k (insert_by_key kx l) = at_key k l ++ at_key k [kx].
Proof.
  unfold at_key.
  induction 1 as [| ky l Hs IH Hall]; cbn [insert_by_key]; [done |].
  destruct (pyfloat_ltb kx.1 ky.1) eqn:Hlt.
  - apply pyfloat_ltb_lt in Hlt.
    cbn [List.filter].
    destruct (pyfloat_eqb kx.1 k) eqn:Hk; [| by rewrite app_nil_r].
    apply pyfloat_eqb_eq in Hk. subst k.
    assert (Hnone : List.filter (λ p, pyfloat_eqb p.1 kx.1) (ky :: l) = []).
    { apply filter_none. intros q Hq.
      apply not_true_is_false. intros Heq. apply pyfloat_eqb_eq in Heq.
      assert (Hle : pyfloat_le ky.1 q.1).
      { apply List.in_inv in Hq as [<- | Hq]; [apply pyfloat_le_refl |].
        rewrite Forall_forall in Hall.
        apply Hall. by apply list_elem_of_In. }
      rewrite Heq in Hle.
      assert (Hc : pyfloat_lt ky.1 ky.1).
      { eapply pyfloat_le_lt_trans; [exact Hle | exact Hlt]. }
      by apply pyfloat_lt_neq in Hc. }
    cbn [List.filter] in Hnone. by rewrite Hnone.
  - cbn [List.filter]. rewrite IH.
    by destruct (pyfloat_eqb ky.1 k).
Qed.

Lemma fold_insert_sorted l acc :
  StronglySorted key_le acc →
  StronglySorted key_le (fold_left (λ acc kx, insert_by_key kx acc) l acc).
Proof.
  revert acc. induction l as [| kx l IH]; intros acc Hacc; cbn; [done |].
  apply IH. by apply insert_by_key_sorted.
Qed.

Lemma fold_insert_perm l acc :
  fold_left (λ acc kx, insert_by_key kx acc) l acc ≡ₚ acc ++ l.
Proof.
  revert acc. induction l as [| kx l IH]; intros acc; cbn.
  - by rewrite app_nil_r.
  - rewrite IH, insert_by_key_perm. cbn. apply Permutation_middle.
Qed.

Lemma fold_insert_at_key l acc k :
  StronglySorted key_le acc →
  at_key k (fold_left (λ acc kx, insert_by_key kx acc) l acc)
  = at_key k acc ++ at_key k l.
Proof.
  revert acc. induction l as [| kx l IH]; intros acc Hacc; cbn [fold_left].
  - unfold at_key. cbn. by rewrite app_nil_r.
  - rewrite IH by by apply insert_by_key_sorted.
    rewrite insert_by_key_at_key by done.
    rewrite <- app_assoc. f_equal.
    unfold at_key. cbn [List.filter]. by destruct (pyfloat_eqb kx.1 k).
Qed.

Lemma sort_keyed_sorted l : StronglySorted key_le (sort_keyed l).
Proof. apply fold_insert_sorted. constructor. Qed.

Lemma sort_keyed_perm l : sort_keyed l ≡ₚ l.
Proof. unfold sort_keyed. by rewrite fold_insert_perm. Qed.

Lemma sort_keyed_stable l k : at_key k (sort_keyed l) = at_key k l.
Proof. unfold sort_keyed. rewrite fold_insert_at_key; [done | constructor]. Qed.
End Sorting.

Lemma pyfloat_le_antisym (x y : pyfloat) : pyfloat_le x y → pyfloat_le y x → x = y.
Proof. destruct x, y; cbn; try done. intros. f_equal. lra. Qed.

Section SortUnique.
Context {A : Type}.
Implicit Types (l : list (pyfloat * A)) (k : pyfloat).

Lemma at_key_cons_same (p : pyfloat * A) l : at_key p.1 (p :: l) = p :: at_key p.1 l.
Proof.
  unfold at_key. cbn [List.filter].
  by rewrite (proj2 (pyfloat_eqb_eq p.1 p.1) eq_refl).
Qed.

Lemma at_key_cons_other (p : pyfloat * A) l k : p.1 ≠ k → at_key k (p :: l) = at_key k l.
Proof.
  intros Hne. unfold at_key. cbn [List.filter].
  destruct (pyfloat_eqb p.1 k) eqn:Heq; [| done].
  by apply pyfloat_eqb_eq in Heq.
Qed.

Lemma at_key_elem k l (p : pyfloat * A) : p ∈ at_key k l → p ∈ l ∧ p.1 = k.
Proof.
  unfold at_key. rewrite !list_elem_of_In, List.filter_In.
  intros [Hin Heq]. by apply pyfloat_eqb_eq in Heq.
Qed.

(** Two arrangements that are both sorted by key and list the elements of
    each key in the same order are the same list.  Hence every stable sort
    returns what [sort_keyed] returns. *)
Lemma sorted_stable_unique l1 l2 :
  StronglySorted key_le l1 → StronglySorted key_le l2 →
  (∀ k, at_key k l1 = at_key k l2) → l1 = l2.
Proof.
  intros Hs1. revert l2.
  induction Hs1 as [| p l1 Hs1 IH Hall1]; intros l2 Hs2 Hkeys.
  - destruct l2 as [| q l2]; [done |].
    specialize (Hkeys q.1). rewrite at_key_cons_same in Hkeys. done.
  - destruct Hs2 as [| q l2 Hs2 Hall2].
    + specialize (Hkeys p.1). rewrite at_key_cons_same in Hkeys. done.
    + assert (Hpq : p.1 = q.1).
      { apply pyfloat_le_antisym.
        - assert (Hq : q ∈ at_key q.1 (p :: l1)).
          { rewrite Hkeys, at_key_cons_same. by left. }
          apply at_key_elem in Hq as [Hq _].
          apply elem_of_cons in Hq as [<- | Hq]; [apply pyfloat_le_refl |].
          rewrite Forall_forall in Hall1. by apply Hall1.
        - assert (Hp : p ∈ at_key p.1 (q :: l2)).
          { rewrite <- Hkeys, at_key_cons_same. by left. }
          apply at_key_elem in Hp as [Hp _].
          apply elem_of_cons in Hp as [-> | Hp]; [apply pyfloat_le_refl |].
          rewrite Forall_forall in Hall2. by apply Hall2. }
      assert (Heq : p = q).
      { pose proof (Hkeys p.1) as Hk.
        rewrite at_key_cons_same, Hpq, at_key_cons_same in Hk. congruence. }
      subst q. f_equal. apply IH; [done |].
      intros k. specialize (Hkeys k).
      destruct (pyfloat_eqb p.1 k) eqn:Hk.
      * apply pyfloat_eqb_eq in Hk. subst k.
        rewrite !at_key_cons_same in Hkeys. congruence.
      * assert (p.1 ≠ k) by (intros ?; subst k;
          by rewrite (proj2 (pyfloat_eqb_eq p.1 p.1) eq_refl) in Hk).
        by rewrite !at_key_cons_other in Hkeys.
Qed.

Lemma sort_keyed_unique l l' :
  StronglySorted key_le l' → (∀ k, at_key k l' = at_key k l) → l' = sort_keyed l.
Proof.
  intros Hs Hkeys. apply sorted_stable_unique; [done | apply sort_keyed_sorted |].
  intros k. by rewrite sort_keyed_stable.
Qed.
End SortUnique.

(** ** Running the handlers *)

Section RoutesFacts.
Context {Salon Barber : Type} `{SalonModel Salon} `{BarberModel Barber}.
Implicit Types (db : DB Salon Barber) (salon s : Salon).

(** A loop whose body issues no query is its pure form. *)
Lemma for_each_pure {A St} (body : A → St → M St) (f : A → St → result St)
    (l : list A) (acc : St) db :
  (∀ x a, body x a db = ([], f x a)) →
  for_each l body acc db = ([], fold_result f l acc).
Proof.
  intros Hbody. revert acc.
  induction l as [| x l IH]; intros acc; cbn [for_each fold_result]; [done |].
  unfold bind. rewrite Hbody.
  destruct (f x acc) as [a | e]; cbn [rbind]; [| done].
  by rewrite IH.
Qed.

Lemma approved_rows db :
  List.filter (row_matches [IsApproved]) (salons db)
  = List.filter is_approved (salons db).
Proof.
  apply List.filter_ext. intros s. unfold row_matches. cbn. apply andb_true_r.
Qed.

(** *** Evaluating a query *)

Lemma sql_ilike_short column p :
  (N.of_nat (String.length p) <= like_pattern_limit)%N →
  sql_ilike column p = Return (ilike column p).
Proof.
  intros Hp. unfold sql_ilike.
  by destruct (N.ltb_spec like_pattern_limit (N.of_nat (String.length p))); [lia |].
Qed.

Lemma sql_ilike_return column p b :
  sql_ilike column p = Return b → b = ilike column p.
Proof. unfold sql_ilike. destruct (_ <? _)%N; [done |]. by intros [= <-]. Qed.

Lemma cond_eval_return c s b : cond_eval c s = Return b → b = cond_holds c s.
Proof.
  destruct c; cbn [cond_eval cond_holds]; [by intros [= <-] | |];
    apply sql_ilike_return.
Qed.

Lemma row_eval_return cs s b : row_eval cs s = Return b → b = row_matches cs s.
Proof.
  unfold row_matches. revert b.
  induction cs as [| c cs IH]; intros b; cbn [row_eval forallb]; [by intros [= <-] |].
  destruct (cond_eval c s) as [b' | e] eqn:Hc; cbn [rbind]; [| done].
  apply cond_eval_return in Hc as ->.
  destruct (cond_holds c s); cbn [andb]; [apply IH | by intros [= <-]].
Qed.

Lemma row_eval_short cs s :
  Forall cond_short cs → row_eval cs s = Return (row_matches cs s).
Proof.
  unfold row_matches.
  induction 1 as [| c cs Hc _ IH]; cbn [row_eval forallb]; [done |].
  assert (Heval : cond_eval c s = Return (cond_holds c s)).
  { destruct c; cbn [cond_eval cond_holds cond_short] in *; [done | |];
      by apply sql_ilike_short. }
  rewrite Heval. cbn [rbind]. by destruct (cond_holds c s).
Qed.

(** A query that returns rows returns the rows its conditions hold of. *)
Lemma select_rows_return cs (rows l : list Salon) :
  select_rows cs rows = Return l → l = List.filter (row_matches cs) rows.
Proof.
  revert l. induction rows as [| s rows IH]; intros l;
    cbn [select_rows List.filter]; [by intros [= <-] |].
  destruct (row_eval cs s) as [b |] eqn:Hrow; cbn [rbind]; [| done].
  apply row_eval_return in Hrow as <-.
  destruct (select_rows cs rows) as [rest |]; cbn [rbind]; [| done].
  intros [= <-]. by rewrite (IH rest eq_refl).
Qed.

(** With patterns within the limit no row is an error. *)
Lemma select_rows_short cs (rows : list Salon) :
  Forall cond_short cs →
  select_rows cs rows = Return (List.filter (row_matches cs) rows).
Proof.
  intros Hcs. induction rows as [| s rows IH]; cbn [select_rows List.filter]; [done |].
  rewrite row_eval_short, IH by done. cbn [rbind]. by destruct (row_matches cs s).
Qed.

Lemma select_rows_ext cs1 cs2 (rows : list Salon) :
  (∀ s, row_eval cs1 s = row_eval cs2 s) →
  select_rows cs1 rows = select_rows cs2 rows.
Proof.
  intros Hrow. induction rows as [| s rows IH]; cbn [select_rows]; [done |].
  by rewrite Hrow, IH.
Qed.

Lemma select_rows_approved (rows : list Salon) :
  select_rows [IsApproved] rows = Return (List.filter is_approved rows).
Proof.
  rewrite select_rows_short by (repeat constructor).
  f_equal. apply List.filter_ext. intros s. unfold row_matches. cbn. apply andb_true_r.
Qed.

(** A row that fails the first condition is not looked at further: rows
    that are not approved play no part in a query that starts from the
    approved ones. *)
Lemma select_rows_approved_first cs (rows : list Salon) :
  select_rows (IsApproved :: cs) (List.filter is_approved rows)
  = select_rows (IsApproved :: cs) rows.
Proof.
  induction rows as [| s rows IH]; cbn [List.filter]; [done |].
  destruct (is_approved s) eqn:Happ.
  - cbn [select_rows]. by rewrite IH.
  - rewrite IH. cbn [select_rows row_eval cond_eval rbind]. rewrite Happ.
    by destruct (select_rows (IsApproved :: cs) rows).
Qed.

(** Binding the id of a stored row raises nothing. *)
Lemma sql_int_salon_id s : sql_int (salon_id s) = Return (salon_id s).
Proof. unfold sql_int. by rewrite salon_id_int64. Qed.

(** *** [get_nearby_salons] *)

Lemma computed_distance_eq user_lat user_lon s :
  computed_distance user_lat user_lon s
  = Return (distance_value user_lat user_lon s).
Proof.
  unfold distance_value, computed_distance.
  destruct (calculate_distance_no_raise user_lat user_lon (latitude s) (longitude s))
    as [d ->]. done.
Qed.

Lemma distance_value_falsy user_lat user_lon s :
  truthy (latitude s) && truthy (longitude s) = false →
  distance_value user_lat user_lon s = Infinity.
Proof.
  intros Hf. unfold distance_value, computed_distance.
  rewrite calculate_distance_eq. unfold py_all. cbn [forallb].
  rewrite andb_true_r.
  replace (truthy user_lat && (truthy user_lon && (truthy (latitude s) && truthy (longitude s))))
    with false; [done |].
  rewrite Hf. by rewrite !andb_false_r.
Qed.

Lemma distance_value_no_user user_lat user_lon s :
  negb (truthy user_lat) || negb (truthy user_lon) = true →
  distance_value user_lat user_lon s = Infinity.
Proof.
  intros Hf. unfold distance_value, computed_distance.
  rewrite calculate_distance_eq. unfold py_all. cbn [forallb].
  destruct (truthy user_lat), (truthy user_lon); try done.
Qed.

Lemma truthy_is_Some_bool (v : option R) :
  truthy v = true → bool_decide (is_Some v) = true.
Proof. destruct v; [intros _; by apply bool_decide_eq_true | done]. Qed.

(** The truth test of line 43 and the distance test of line 45 together
    select the salons with both coordinates present whose computed distance
    is within the radius: a zero coordinate makes the computed distance
    infinite. *)
Lemma nearby_keep_eq user_lat user_lon r s :
  is_approved s = true →
  truthy (latitude s) && truthy (longitude s)
  && pyfloat_leb (distance_value user_lat user_lon s) (Finite r)
  = nearby_keep user_lat user_lon (Some r) s.
Proof.
  intros Happ. unfold nearby_keep, eligible, within_radius.
  rewrite Happ, computed_distance_eq. cbn [andb].
  destruct (truthy (latitude s) && truthy (longitude s)) eqn:Ht.
  - apply andb_prop in Ht as [Hla Hlo].
    by rewrite (truthy_is_Some_bool _ Hla), (truthy_is_Some_bool _ Hlo).
  - rewrite (distance_value_falsy _ _ _ Ht). cbn. by rewrite andb_false_r.
Qed.

Lemma fold_nearby_some user_lat user_lon r (l : list Salon) acc :
  fold_result (nearby_step user_lat user_lon (Some r)) l acc
  = Return (acc ++ (annotate user_lat user_lon
                      <$> List.filter
                            (λ s, truthy (latitude s) && truthy (longitude s)
                                  && pyfloat_leb (distance_value user_lat user_lon s)
                                       (Finite r)) l)).
Proof.
  revert acc. induction l as [| s l IH]; intros acc; cbn [fold_result List.filter].
  - by rewrite app_nil_r.
  - unfold nearby_step at 1.
    destruct (truthy (latitude s) && truthy (longitude s)) eqn:Ht; cbn [andb rbind].
    + fold (computed_distance user_lat user_lon s).
      rewrite computed_distance_eq. cbn [rbind py_le].
      destruct (pyfloat_leb _ _); cbn [rbind]; rewrite IH; [| done].
      cbn [fmap list_fmap]. by rewrite <- app_assoc.
    + by rewrite IH.
Qed.

Lemma fold_nearby_none user_lat user_lon (l : list Salon) acc :
  fold_result (nearby_step user_lat user_lon None) l acc
  = if existsb (λ s, truthy (latitude s) && truthy (longitude s)) l
    then Raise le_none_error else Return acc.
Proof.
  induction l as [| s l IH]; cbn [fold_result existsb]; [done |].
  unfold nearby_step at 1.
  destruct (truthy (latitude s) && truthy (longitude s)) eqn:Ht; cbn [orb rbind].
  - fold (computed_distance user_lat user_lon s).
    by rewrite computed_distance_eq.
  - exact IH.
Qed.

Lemma decorate_annotate user_lat user_lon (l : list Salon) :
  decorate distance_key (annotate user_lat user_lon <$> l)
  = Return ((λ s, (py_round2 (distance_value user_lat user_lon s),
                   annotate user_lat user_lon s)) <$> l).
Proof.
  induction l as [| s l IH]; cbn [fmap list_fmap decorate]; [done |].
  change (list_fmap _ _ (annotate user_lat user_lon) l)
    with (annotate user_lat user_lon <$> l).
  rewrite IH. unfold distance_key at 1, annotate at 1.
  by rewrite lookup_insert_eq.
Qed.

Lemma nearby_body_pure (user_lat user_lon radius : option R) salon
    (nearby_salons : list (gmap string pyval)) db :
  (if truthy (latitude salon) && truthy (longitude salon) then
     bind (lift (calculate_distance user_lat user_lon
                   (latitude salon) (longitude salon)))
       (λ distance,
          bind (lift (py_le distance radius))
            (λ within : bool,
               if within then
                 ret (nearby_salons
                      ++ [<["distance" := PyFloat (py_round2 distance)]>
                            (to_dict salon)])
               else ret nearby_salons))
   else ret nearby_salons) db
  = ([], nearby_step user_lat user_lon radius salon nearby_salons).
Proof.
  unfold nearby_step, bind, lift, ret.
  destruct (truthy (latitude salon) && truthy (longitude salon)); [| done].
  destruct (calculate_distance _ _ _ _) as [d | e]; cbn [rbind]; [| done].
  destruct (py_le d radius) as [[|] | e]; cbn [rbind]; done.
Qed.

Lemma nearby_kept_eq user_lat user_lon r db :
  List.filter
    (λ s, truthy (latitude s) && truthy (longitude s)
          && pyfloat_leb (distance_value user_lat user_lon s) (Finite r))
    (List.filter is_approved (salons db))
  = nearby_kept user_lat user_lon (Some r) db.
Proof.
  unfold nearby_kept. induction (salons db) as [| s l IH]; cbn [List.filter]; [done |].
  destruct (is_approved s) eqn:Happ; cbn [List.filter].
  - rewrite (nearby_keep_eq _ _ _ _ Happ), IH. done.
  - rewrite IH. unfold nearby_keep at 2, eligible. by rewrite Happ.
Qed.

(** The sorted entries of a successful nearby search. *)
Lemma get_nearby_salons_run data db :
  let user_lat := dict_get data "latitude" None in
  let user_lon := dict_get data "longitude" None in
  let radius := dict_get data "radius" (Some 50) in
  get_nearby_salons data db =
  if negb (truthy user_lat) || negb (truthy user_lon) then
    ([], Return (jsonify (error_body
                   "User location (latitude and longitude) is required") 400))
  else
    ([SalonAll [IsApproved]],
     Return
       match fold_result (nearby_step user_lat user_lon radius)
               (List.filter is_approved (salons db)) [] with
       | Return nearby =>
           match list_sort distance_key nearby with
           | Return sorted =>
               jsonify {[ "salons" := PyList (PyDict <$> sorted);
                          "total_count" := py_len sorted;
                          "search_radius" := py_opt_float radius ]} 200
           | Raise e => jsonify (error_body (exn_str e)) 500
           end
       | Raise e => jsonify (error_body (exn_str e)) 500
       end).
Proof.
  intros user_lat user_lon radius.
  unfold get_nearby_salons, try_except.
  fold user_lat user_lon radius.
  destruct (negb (truthy user_lat) || negb (truthy user_lon)); [done |].
  unfold bind at 1. unfold salon_all at 1. rewrite select_rows_approved.
  unfold bind at 1.
  rewrite (for_each_pure _ (nearby_step user_lat user_lon radius)).
  2: { intros x a. apply nearby_body_pure. }
  destruct (fold_result _ _ _) as [nearby | e]; [| done].
  unfold bind, lift, ret.
  destruct (list_sort distance_key nearby) as [sorted | e]; done.
Qed.
End RoutesFacts.

Section NearbyFacts.
Context {Salon Barber : Type} `{SalonModel Salon} `{BarberModel Barber}.
Implicit Types (db : DB Salon Barber) (salon s : Salon).

Lemma nearby_kept_no_user user_lat user_lon radius db :
  negb (truthy user_lat) || negb (truthy user_lon) = true →
  nearby_kept user_lat user_lon radius db = [].
Proof.
  intros Hu. unfold nearby_kept.
  induction (salons db) as [| s l IH]; cbn [List.filter]; [done |].
  rewrite IH. unfold nearby_keep, within_radius.
  rewrite computed_distance_eq, (distance_value_no_user _ _ _ Hu).
  destruct radius; cbn; by rewrite andb_false_r.
Qed.

Lemma nearby_kept_no_radius user_lat user_lon db :
  nearby_kept user_lat user_lon None db = [].
Proof.
  unfold nearby_kept.
  induction (salons db) as [| s l IH]; cbn [List.filter]; [done |].
  rewrite IH. unfold nearby_keep. by rewrite andb_false_r.
Qed.

Lemma list_sort_annotate user_lat user_lon (l : list Salon) :
  list_sort distance_key (annotate user_lat user_lon <$> l)
  = Return (snd <$> sort_keyed (keyed_entry user_lat user_lon <$> l)).
Proof. unfold list_sort. by rewrite decorate_annotate. Qed.

Lemma response_salons_ok (entries : list (gmap string pyval)) (n radius : pyval) :
  response_salons
    (jsonify {[ "salons" := PyList (PyDict <$> entries);
                "total_count" := n;
                "search_radius" := radius ]} 200)
  = PyDict <$> entries.
Proof. unfold response_salons, jsonify. cbn [body]. by rewrite lookup_insert_eq. Qed.

Lemma response_salons_error msg code :
  response_salons (jsonify (error_body msg) code) = [].
Proof.
  unfold response_salons, jsonify, error_body. cbn [body].
  by rewrite lookup_singleton_ne.
Qed.

(** Whatever the request, the salons of the response are the eligible
    salons within the radius, annotated and sorted. *)
Lemma get_nearby_salons_salons data db log resp :
  get_nearby_salons data db = (log, Return resp) →
  response_salons resp
  = PyDict <$> nearby_sorted (dict_get data "latitude" None)
                 (dict_get data "longitude" None)
                 (dict_get data "radius" (Some 50)) db.
Proof.
  rewrite get_nearby_salons_run. cbv zeta.
  set (user_lat := dict_get data "latitude" None).
  set (user_lon := dict_get data "longitude" None).
  set (radius := dict_get data "radius" (Some 50)).
  unfold nearby_sorted.
  destruct (negb (truthy user_lat) || negb (truthy user_lon)) eqn:Hu.
  - intros [= <- <-]. rewrite response_salons_error.
    by rewrite nearby_kept_no_user.
  - intros [= <- <-]. destruct radius as [r |].
    + rewrite fold_nearby_some, nearby_kept_eq. cbn [app].
      rewrite list_sort_annotate. apply response_salons_ok.
    + rewrite fold_nearby_none, nearby_kept_no_radius.
      destruct (existsb _ _); [by rewrite response_salons_error |].
      exact (response_salons_ok [] _ _).
Qed.

(** The handler always answers: the [try] turns every exception into a
    response. *)
Lemma get_nearby_salons_total data db :
  ∃ log resp, get_nearby_salons data db = (log, Return resp).
Proof.
  rewrite get_nearby_salons_run. cbv zeta.
  destruct (negb _ || negb _); eauto.
Qed.

Lemma nearby_sorted_perm user_lat user_lon radius db :
  nearby_sorted user_lat user_lon radius db
  ≡ₚ annotate user_lat user_lon <$> nearby_kept user_lat user_lon radius db.
Proof.
  unfold nearby_sorted. rewrite sort_keyed_perm.
  rewrite <- list_fmap_compose. done.
Qed.
End NearbyFacts.

(** ** Keyed lists and the entries they produce *)

Section KeyedEntries.
Implicit Types (l : list (pyfloat * gmap string pyval)) (k : pyfloat).

Lemma entries_at_keyed l k :
  keys_agree l →
  entries_at k (PyDict <$> (snd <$> l)) = PyDict <$> (snd <$> at_key k l).
Proof.
  unfold entries_at, at_key.
  induction 1 as [| p l Hp _ IH]; cbn [fmap list_fmap List.filter]; [done |].
  rewrite Hp. destruct (pyfloat_eqb p.1 k); cbn [fmap list_fmap]; by rewrite <- IH.
Qed.

Lemma strongly_sorted_lookup l i j p q :
  StronglySorted key_le l → (i < j)%nat →
  l !! i = Some p → l !! j = Some q → key_le p q.
Proof.
  intros Hs. revert i j. induction Hs as [| x l Hs IH Hall]; intros i j Hij Hi Hj.
  - by rewrite lookup_nil in Hi.
  - destruct j as [| j]; [lia |]. cbn in Hj.
    destruct i as [| i]; cbn in Hi.
    + injection Hi as <-. rewrite Forall_forall in Hall.
      apply Hall. by eapply list_elem_of_lookup_2.
    + apply (IH i j); [lia | done | done].
Qed.
End KeyedEntries.

(** ** The nearby search *)

Section NearbyClaims.
Context {Salon Barber : Type} `{SalonModel Salon} `{BarberModel Barber}.
Implicit Types (db : DB Salon Barber) (salon s : Salon).

Lemma entry_distance_annotate user_lat user_lon s :
  entry_distance (PyDict (annotate user_lat user_lon s))
  = Some (py_round2 (distance_value user_lat user_lon s)).
Proof. unfold entry_distance, annotate. by rewrite lookup_insert_eq. Qed.

Lemma keyed_entries_agree user_lat user_lon (l : list Salon) :
  keys_agree (keyed_entry user_lat user_lon <$> l).
Proof.
  unfold keys_agree. apply Forall_fmap, Forall_forall. intros s _.
  apply entry_distance_annotate.
Qed.

Lemma nearby_kept_spec user_lat user_lon radius db s :
  s ∈ nearby_kept user_lat user_lon radius db ↔
  s ∈ salons db ∧ nearby_keep user_lat user_lon radius s = true.
Proof.
  unfold nearby_kept. rewrite !list_elem_of_In, List.filter_In. done.
Qed.

(** A salon whose latitude is zero is never kept, whatever the radius: the
    truth test of line 43 skips it, and the distance function would report
    the infinite sentinel for it. *)
Lemma nearby_keep_zero_latitude user_lat user_lon radius s :
  latitude s = Some 0 → nearby_keep user_lat user_lon radius s = false.
Proof.
  intros Hlat. unfold nearby_keep. destruct radius as [r |]; [| apply andb_false_r].
  unfold within_radius. rewrite computed_distance_eq, distance_value_falsy.
  - apply andb_false_r.
  - by rewrite Hlat, truthy_zero.
Qed.

(** C4.  Every entry of a nearby result is the annotated view of a salon
    of the database that is approved and has both its latitude and its
    longitude. *)
Theorem get_nearby_salons_only_eligible data db :
  ∃ log resp,
    get_nearby_salons data db = (log, Return resp)
    ∧ ∀ e, e ∈ response_salons resp →
        ∃ s, s ∈ salons db
             ∧ is_approved s = true
             ∧ is_Some (latitude s)
             ∧ is_Some (longitude s)
             ∧ e = PyDict (annotate (dict_get data "latitude" None)
                             (dict_get data "longitude" None) s).
Proof.
  destruct (get_nearby_salons_total data db) as (log & resp & Hrun).
  exists log, resp. split; [exact Hrun |].
  intros e. rewrite (get_nearby_salons_salons _ _ _ _ Hrun).
  rewrite nearby_sorted_perm, <- list_fmap_compose.
  intros (s & -> & Hs)%list_elem_of_fmap.
  apply nearby_kept_spec in Hs as [Hin Hkeep].
  unfold nearby_keep, eligible in Hkeep.
  apply andb_prop in Hkeep as [Hel _].
  apply andb_prop in Hel as [Hel Hlon]. apply andb_prop in Hel as [Happ Hlat].
  exists s. repeat split; try done.
  - by apply bool_decide_eq_true in Hlat.
  - by apply bool_decide_eq_true in Hlon.
Qed.

(** C3.  The entries of a nearby result are in ascending order of their
    attached distance: each entry carries one and it is at most that of the
    next entry.  The sort is stable: for every distance [k], the entries
    that carry [k] appear in the order in which the database lists their
    salons. *)
Theorem get_nearby_salons_sorted_stable data db :
  let user_lat := dict_get data "latitude" None in
  let user_lon := dict_get data "longitude" None in
  let radius := dict_get data "radius" (Some 50) in
  ∃ log resp,
    get_nearby_salons data db = (log, Return resp)
    ∧ (∀ i a b,
         response_salons resp !! i = Some a →
         response_salons resp !! (i + 1)%nat = Some b →
         ∃ ka kb, entry_distance a = Some ka
                  ∧ entry_distance b = Some kb
                  ∧ pyfloat_le ka kb)
    ∧ (∀ k,
         entries_at k (response_salons resp)
         = entries_at k ((λ s, PyDict (annotate user_lat user_lon s))
                         <$> nearby_kept user_lat user_lon radius db)).
Proof.
  intros user_lat user_lon radius.
  destruct (get_nearby_salons_total data db) as (log & resp & Hrun).
  exists log, resp. split; [exact Hrun |].
  rewrite (get_nearby_salons_salons _ _ _ _ Hrun).
  fold user_lat user_lon radius. unfold nearby_sorted.
  set (keyed := keyed_entry user_lat user_lon
                <$> nearby_kept user_lat user_lon radius db).
  assert (Hagree : keys_agree keyed) by apply keyed_entries_agree.
  assert (Hagree' : keys_agree (sort_keyed keyed)).
  { unfold keys_agree in *. by rewrite sort_keyed_perm. }
  split.
  - intros i a b Ha Hb.
    rewrite !list_lookup_fmap in Ha, Hb.
    destruct (sort_keyed keyed !! i) as [p |] eqn:Hp; [| done].
    destruct (sort_keyed keyed !! (i + 1)%nat) as [q |] eqn:Hq; [| done].
    cbn in Ha, Hb. injection Ha as <-. injection Hb as <-.
    unfold keys_agree in Hagree'. rewrite Forall_forall in Hagree'.
    exists p.1, q.1. repeat split.
    + apply Hagree'. by eapply list_elem_of_lookup_2.
    + apply Hagree'. by eapply list_elem_of_lookup_2.
    + apply (strongly_sorted_lookup (sort_keyed keyed) i (i + 1) p q);
        [apply sort_keyed_sorted | lia | done | done].
  - intros k. rewrite (entries_at_keyed _ _ Hagree'), sort_keyed_stable.
    rewrite <- (entries_at_keyed _ _ Hagree). unfold keyed.
    by rewrite <- !list_fmap_compose.
Qed.

(** C9.  When the latitude or the longitude of the request is absent, null
    or zero, the handler answers 400 with an error body and no salons, and
    it issues no query. *)
Theorem get_nearby_salons_requires_location data db :
  truthy (dict_get data "latitude" None) = false
  ∨ truthy (dict_get data "longitude" None) = false →
  get_nearby_salons data db
  = ([], Return (jsonify (error_body
                   "User location (latitude and longitude) is required") 400)).
Proof.
  intros Hf. rewrite get_nearby_salons_run. cbv zeta.
  destruct Hf as [-> | ->]; [done |]. by rewrite orb_true_r.
Qed.
End NearbyClaims.

(** ** Listing, filtering by place, and single lookup *)

Section ListingFacts.
Context {Salon Barber : Type} `{SalonModel Salon} `{BarberModel Barber}.
Implicit Types (db : DB Salon Barber) (salon s : Salon).

Lemma barber_all_salon s db :
  barber_all (salon_id s) db
  = ([BarberAll (salon_id s)], Return (barbers_of db (salon_id s))).
Proof. unfold barber_all. by rewrite sql_int_salon_id. Qed.

(** The enrichment loop asks for the barbers of each salon in turn and
    appends the enriched views in the order of the salons. *)
Lemma for_each_with_barbers (l : list Salon) (acc : list (gmap string pyval)) db :
  for_each l append_with_barbers acc db
  = ((λ s, BarberAll (salon_id s)) <$> l,
     Return (acc ++ (with_barbers db <$> l))).
Proof.
  revert acc. induction l as [| s l IH]; intros acc; cbn [for_each fmap list_fmap].
  - unfold ret. by rewrite app_nil_r.
  - unfold bind at 1. unfold append_with_barbers at 1.
    unfold bind at 1. rewrite barber_all_salon. unfold ret at 1.
    rewrite IH. cbn [app]. rewrite <- app_assoc. done.
Qed.

Lemma get_all_salons_run db :
  get_all_salons db
  = ((listing_run [IsApproved] db).1,
     Return (jsonify
               {[ "salons" := PyList (PyDict <$> (listing_run [IsApproved] db).2);
                  "total_count" := py_len (listing_run [IsApproved] db).2 ]}
               200)).
Proof.
  unfold get_all_salons, try_except.
  unfold bind at 1, salon_all at 1.
  rewrite select_rows_short by (repeat constructor). unfold bind at 1.
  rewrite for_each_with_barbers. unfold ret. cbv beta iota zeta.
  by rewrite app_nil_r.
Qed.

(** [/by_city]: the query either returns rows, which are enriched and
    listed, or fails, and the failure is answered with status 500. *)
Lemma get_salons_by_city_cases (args : gmap string string) db :
  let city := args !! "city" in
  let country := args !! "country" in
  let conds := by_city_conds city country in
  get_salons_by_city args db
  = match select_rows conds (salons db) with
    | Return rows =>
        (SalonAll conds :: ((λ s, BarberAll (salon_id s)) <$> rows),
         Return (jsonify
                   {[ "salons" := PyList (PyDict <$> (with_barbers db <$> rows));
                      "total_count" := py_len (with_barbers db <$> rows);
                      "filters" := PyDict {[ "city" := py_opt_str city;
                                             "country" := py_opt_str country ]} ]}
                   200))
    | Raise e => ([SalonAll conds], Return (jsonify (error_body (exn_str e)) 500))
    end.
Proof.
  intros city country conds.
  unfold get_salons_by_city, try_except.
  fold city country. cbv zeta. fold (by_city_conds city country). fold conds.
  unfold bind at 1, salon_all at 1.
  destruct (select_rows conds (salons db)) as [rows | e]; [| done].
  unfold bind at 1.
  rewrite for_each_with_barbers. unfold ret. cbv beta iota zeta.
  by rewrite app_nil_r.
Qed.

Lemma get_salons_by_city_run (args : gmap string string) db :
  let city := args !! "city" in
  let country := args !! "country" in
  let run := listing_run (by_city_conds city country) db in
  Forall cond_short (by_city_conds city country) →
  get_salons_by_city args db
  = (run.1,
     Return (jsonify
               {[ "salons" := PyList (PyDict <$> run.2);
                  "total_count" := py_len run.2;
                  "filters" := PyDict {[ "city" := py_opt_str city;
                                         "country" := py_opt_str country ]} ]}
               200)).
Proof.
  intros city country run Hshort.
  rewrite get_salons_by_city_cases. cbv zeta. fold city country.
  by rewrite select_rows_short.
Qed.

(** Whatever the filters are, [/by_city] answers, and the salons of its
    answer are enriched rows that the conditions hold of, in table order. *)
Lemma get_salons_by_city_rows (args : gmap string string) db :
  let conds := by_city_conds (args !! "city") (args !! "country") in
  ∃ log resp rows,
    get_salons_by_city args db = (log, Return resp)
    ∧ log = SalonAll conds :: ((λ s, BarberAll (salon_id s)) <$> rows)
    ∧ response_salons resp = PyDict <$> (with_barbers db <$> rows)
    ∧ rows `sublist_of` List.filter (row_matches conds) (salons db).
Proof.
  intros conds. rewrite get_salons_by_city_cases. cbv zeta. fold conds.
  destruct (select_rows conds (salons db)) as [rows | e] eqn:Hsel.
  - apply select_rows_return in Hsel as ->.
    eexists _, _, _. split; [done |]. split; [done |]. split; [| done].
    unfold response_salons, jsonify. cbn [body]. by rewrite lookup_insert_eq.
  - eexists _, _, []. split; [done |]. split; [done |]. split.
    + unfold response_salons, jsonify, error_body. cbn [body].
      by rewrite lookup_singleton_ne.
    + apply sublist_nil_l.
Qed.

Lemma get_salon_details_run (id : Z) db :
  get_salon_details id db
  = if in_int64 id then
      match List.find (λ s, Z.eqb (salon_id s) id) (salons db) with
      | None => ([SalonGet id], Return (jsonify (error_body "Salon not found") 404))
      | Some s =>
          if is_approved s then
            ([SalonGet id; BarberAll (salon_id s)],
             Return (jsonify {[ "salon" := PyDict (with_barbers db s) ]} 200))
          else
            ([SalonGet id], Return (jsonify (error_body "Salon is not approved") 403))
      end
    else
      ([SalonGet id],
       Return (jsonify
                 (error_body "Python int too large to convert to SQLite INTEGER")
                 500)).
Proof.
  unfold get_salon_details, try_except.
  unfold bind at 1, salon_get at 1, sql_int at 1.
  destruct (in_int64 id); cbn [rbind]; [| done].
  destruct (List.find _ _) as [s |]; [| done].
  destruct (is_approved s); cbn [negb]; [| done].
  unfold bind at 1. by rewrite barber_all_salon.
Qed.
End ListingFacts.

(** ** [LIKE] patterns and substrings *)

(** The suffixes at characters are those reached by stepping over one
    character at a time. *)
Lemma suffixes_from_inside (t : string) :
  suffixes_from true t = suffixes_from false (drop_continuation t).
Proof.
  induction t as [| c t IH]; [done |].
  cbn [suffixes_from drop_continuation andb].
  destruct (is_continuation c) eqn:Hc; [exact IH |].
  cbn [suffixes_from andb]. done.
Qed.

Lemma char_suffixes_cons (c : ascii) (t : string) :
  char_suffixes (String c t) = String c t :: char_suffixes (skip_char c t).
Proof.
  unfold char_suffixes, skip_char. cbn [suffixes_from andb].
  destruct (is_lead c); [by rewrite suffixes_from_inside | done].
Qed.



Lemma like_match_underscore (q : string) (d : ascii) (t : string) :
  like_match (String "_" q) (String d t) = like_match q (skip_char d t).
Proof. reflexivity. Qed.



Lemma append_cons (c : ascii) (s t : string) : String c s +:+ t = String c (s +:+ t).
Proof. reflexivity. Qed.

Lemma append_nil (t : string) : EmptyString +:+ t = t.
Proof. reflexivity. Qed.






Lemma is_prefix_spec (p t : string) :
  is_prefix p t = true ↔ ∃ post, t = p +:+ post.
Proof.
  revert t. induction p as [| c p IH]; intros t;
    rewrite ?append_cons, ?append_nil; cbn [is_prefix].
  - split; [eauto | done].
  - destruct t as [| d t].
    + split; [done | by intros [post ?]].
    + rewrite andb_true_iff, IH. split.
      * intros [Hc [post ->]]. apply Ascii.eqb_eq in Hc as ->. eauto.
      * intros [post [= -> ->]]. split; [apply Ascii.eqb_refl | eauto].
Qed.

Lemma is_substring_spec (p t : string) :
  is_substring p t = true ↔ ∃ pre post, t = pre +:+ p +:+ post.
Proof.
  induction t as [| d t IH]; cbn [is_substring]; rewrite orb_true_iff.
  - rewrite is_prefix_spec. split.
    + intros [[post ->] | ?]; [| done]. by exists EmptyString, post.
    + intros (pre & post & Heq). left.
      destruct pre; cbn in Heq; [eauto | done].
  - rewrite is_prefix_spec, IH. split.
    + intros [[post ->] | (pre & post & ->)].
      * by exists EmptyString, post.
      * by exists (String d pre), post.
    + intros (pre & post & Heq). destruct pre as [| c pre]; cbn in Heq.
      * left. eauto.
      * right. injection Heq as -> ->. eauto.
Qed.









Lemma lower_app (s t : string) : lower (s +:+ t) = lower s +:+ lower t.
Proof.
  induction s as [| c s IH]; rewrite ?append_cons, ?append_nil; cbn [lower]; [done |].
  by rewrite IH, append_cons.
Qed.

Lemma length_lower (s : string) : String.length (lower s) = String.length s.
Proof. induction s as [| c s IH]; cbn [lower String.length]; [done |]. by rewrite IH. Qed.

Lemma length_app (s t : string) :
  String.length (s +:+ t) = (String.length s + String.length t)%nat.
Proof.
  induction s as [| c s IH]; rewrite ?append_cons, ?append_nil; cbn [String.length]; [done |].
  by rewrite IH.
Qed.

Lemma length_like_pattern (needle : string) :
  String.length (like_pattern (Some needle)) = (String.length needle + 2)%nat.
Proof.
  unfold like_pattern. cbn [default from_option Datatypes.id].
  rewrite append_cons, append_nil. cbn [String.length].
  rewrite length_app. cbn [String.length]. lia.
Qed.



(** ** The listing handlers and the single lookup *)

Section ListingClaims.
Context {Salon Barber : Type} `{SalonModel Salon} `{BarberModel Barber}.
Implicit Types (db : DB Salon Barber) (salon s : Salon).

(** The enriched view with the barbers and their summaries written out. *)
Lemma with_barbers_eq db s :
  with_barbers db s
  = <["barbers" :=
        PyList ((λ b, PyDict {[ "id" := PyInt (barber_id b);
                                "name" := barber_name b;
                                "specialty" := barber_specialty b ]})
                <$> List.filter
                      (λ b, bool_decide (barber_salon_id b = Some (salon_id s)))
                      (barbers db))]>
      (to_dict s).
Proof.
  unfold with_barbers, barbers_of. do 3 f_equal.
  apply List.filter_ext. intros b.
  destruct (barber_salon_id b) as [i |]; [| done].
  destruct (Z.eqb_spec i (salon_id s)) as [-> | Hne].
  - by rewrite bool_decide_eq_true_2.
  - rewrite bool_decide_eq_false_2; [done | congruence].
Qed.

Lemma in_int64_spec (z : Z) : in_int64 z = true ↔ (- 2 ^ 63 <= z < 2 ^ 63)%Z.
Proof. unfold in_int64. rewrite andb_true_iff, Z.leb_le, Z.ltb_lt. done. Qed.

(** C5, amended.  A lookup by an id within the signed 64-bit range of the
    database's integer keys has exactly three outcomes.  No salon with the
    id: 404, "Salon not found".  The salon with the id is not approved: 403,
    "Salon is not approved".  It is approved: 200 with its serialized view,
    to which the summaries of its barbers (the barbers whose [salon_id] is
    the salon's id, each as the object of its id, name and specialty) are
    attached under ["barbers"].  An id outside that range is answered with
    status 500: binding it to the lookup raises [OverflowError], which the
    handler's [except] catches. *)
Theorem get_salon_details_outcomes (id : Z) db :
  ∃ log resp,
    get_salon_details id db = (log, Return resp)
    ∧ ((id < - 2 ^ 63 ∨ 2 ^ 63 <= id)%Z ∧ status resp = 500%Z
       ∨ (- 2 ^ 63 <= id < 2 ^ 63)%Z
         ∧ ((∀ s, s ∈ salons db → salon_id s ≠ id)
              ∧ resp = jsonify (error_body "Salon not found") 404
            ∨ (∃ s, List.find (λ s, Z.eqb (salon_id s) id) (salons db) = Some s
                    ∧ s ∈ salons db ∧ salon_id s = id
                    ∧ is_approved s = false
                    ∧ resp = jsonify (error_body "Salon is not approved") 403)
            ∨ (∃ s, List.find (λ s, Z.eqb (salon_id s) id) (salons db) = Some s
                    ∧ s ∈ salons db ∧ salon_id s = id
                    ∧ is_approved s = true
                    ∧ resp
                      = jsonify
                          {[ "salon" :=
                               PyDict
                                 (<["barbers" :=
                                      PyList
                                        ((λ b, PyDict
                                                 {[ "id" := PyInt (barber_id b);
                                                    "name" := barber_name b;
                                                    "specialty" := barber_specialty b ]})
                                         <$> List.filter
                                               (λ b, bool_decide
                                                       (barber_salon_id b
                                                        = Some (salon_id s)))
                                               (barbers db))]>
                                    (to_dict s)) ]} 200))).
Proof.
  rewrite get_salon_details_run.
  destruct (in_int64 id) eqn:Hrange.
  - apply in_int64_spec in Hrange.
    destruct (List.find _ _) as [s |] eqn:Hfind.
    + pose proof (List.find_some _ _ Hfind) as [Hin Hid].
      apply list_elem_of_In in Hin. apply Z.eqb_eq in Hid.
      destruct (is_approved s) eqn:Happ; eexists _, _; (split; [reflexivity |]);
        right; (split; [exact Hrange |]).
      * right; right. exists s. by rewrite Happ, with_barbers_eq.
      * right; left. exists s. by rewrite Happ.
    + eexists _, _. split; [reflexivity |]. right. split; [exact Hrange |].
      left. split; [| done].
      intros s Hin%list_elem_of_In Hid.
      pose proof (List.find_none _ _ Hfind s Hin) as Hne.
      apply Z.eqb_neq in Hne. done.
  - eexists _, _. split; [reflexivity |]. left. split; [| done].
    destruct (Z.leb_spec (- 2 ^ 63) id) as [Hlo | Hlo]; [| by left].
    destruct (Z.ltb_spec id (2 ^ 63)) as [Hhi | Hhi]; [| by right].
    assert (in_int64 id = true) by (apply in_int64_spec; lia). congruence.
Qed.

(** C10.  Without a city and without a country, [/by_city] issues the
    queries of [/all] and answers with the same salons, enriched with the
    same barbers, in the same order, and the same count; the only
    difference is the ["filters"] entry, which echoes the two missing
    filters. *)
Theorem get_salons_by_city_no_filter (args : gmap string string) db :
  args !! "city" = None → args !! "country" = None →
  ∃ log views,
    get_all_salons db
    = (log,
       Return (jsonify {[ "salons" := PyList (PyDict <$> views);
                          "total_count" := py_len views ]} 200))
    ∧ get_salons_by_city args db
      = (log,
         Return (jsonify {[ "salons" := PyList (PyDict <$> views);
                            "total_count" := py_len views;
                            "filters" := PyDict {[ "city" := PyNone;
                                                   "country" := PyNone ]} ]} 200)).
Proof.
  intros Hcity Hcountry.
  exists (listing_run [IsApproved] db).1, (listing_run [IsApproved] db).2.
  split; [apply get_all_salons_run |].
  rewrite get_salons_by_city_run; cbv zeta; rewrite Hcity, Hcountry;
    [done | repeat constructor].
Qed.



End ListingClaims.




(** C5 as stated fails for the id 2^63.  No salon has this id, yet the
    lookup is not answered with 404, "Salon not found": it is answered with
    status 500. *)
Lemma get_salon_details_overflow :
  (∀ s, s ∈ salons cairo_db → salon_id s ≠ (2 ^ 63)%Z)
  ∧ (¬ ∃ log,
         get_salon_details (2 ^ 63) cairo_db
         = (log, Return (jsonify (error_body "Salon not found") 404)))
  ∧ ∃ log resp,
      get_salon_details (2 ^ 63) cairo_db = (log, Return resp)
      ∧ status resp = 500%Z.
Proof.
  split; [| split].
  - intros s Hs. unfold cairo_db in Hs. cbn [salons] in Hs.
    repeat (apply elem_of_cons in Hs as [-> | Hs]; [done |]).
    by apply elem_of_nil in Hs.
  - intros [log Hrun]. rewrite get_salon_details_run in Hrun.
    change (in_int64 (2 ^ 63)) with false in Hrun. cbv iota in Hrun.
    injection Hrun as _ Hbody. discriminate.
  - rewrite get_salon_details_run. eexists _, _. split; [reflexivity |]. done.
Qed.

Lemma get_salons_by_city_no_filter_witness :
  ∃ log views,
    get_all_salons cairo_db
    = (log,
       Return (jsonify {[ "salons" := PyList (PyDict <$> views);
                          "total_count" := py_len views ]} 200))
    ∧ get_salons_by_city ∅ cairo_db
      = (log,
         Return (jsonify {[ "salons" := PyList (PyDict <$> views);
                            "total_count" := py_len views;
                            "filters" := PyDict {[ "city" := PyNone;
                                                   "country" := PyNone ]} ]} 200)).
Proof. apply (get_salons_by_city_no_filter ∅ cairo_db); reflexivity. Defined.

(** A request without a latitude. *)
Lemma get_nearby_salons_requires_location_witness :
  get_nearby_salons {[ "longitude" := Some 31.2 ]} cairo_db
  = ([], Return (jsonify (error_body
                   "User location (latitude and longitude) is required") 400)).
Proof.
  exact (get_nearby_salons_requires_location {[ "longitude" := Some 31.2 ]} cairo_db
           (or_introl eq_refl)).
Defined.

(** A user on the equator is answered like one who sent no latitude. *)
Example get_nearby_salons_equator_user :
  get_nearby_salons {[ "latitude" := Some 0; "longitude" := Some 31.2 ]} cairo_db
  = ([], Return (jsonify (error_body
                   "User location (latitude and longitude) is required") 400)).
Proof.
  rewrite get_nearby_salons_run. cbv zeta.
  change (dict_get {[ "latitude" := Some 0; "longitude" := Some 31.2 ]} "latitude" None)
    with (Some 0).
  by rewrite truthy_zero.
Qed.

(** A lookup of the salon that is not approved, and of an id that no salon
    has. *)
Example get_salon_details_unapproved :
  get_salon_details 5 cairo_db
  = ([SalonGet 5], Return (jsonify (error_body "Salon is not approved") 403)).
Proof. by rewrite get_salon_details_run. Qed.

Example get_salon_details_missing :
  get_salon_details 9 cairo_db
  = ([SalonGet 9], Return (jsonify (error_body "Salon not found") 404)).
Proof. by rewrite get_salon_details_run. Qed.

(** ** The scenario of the specification *)

Lemma asin_le_of_le_sin (y z : R) :
  -1 <= y <= 1 → - (PI / 2) <= z <= PI / 2 → y <= sin z → asin y <= z.
Proof.
  intros Hy Hz Hle. destruct (Rle_lt_dec (asin y) z) as [H | H]; [exact H |].
  pose proof (asin_bound y) as Hb.
  assert (Hs : sin z < sin (asin y)) by (apply sin_increasing_1; lra).
  rewrite sin_asin in Hs by exact Hy. lra.
Qed.

Lemma asin_ge_of_sin_le (y z : R) :
  -1 <= y <= 1 → - (PI / 2) <= z <= PI / 2 → sin z <= y → z <= asin y.
Proof.
  intros Hy Hz Hle. destruct (Rle_lt_dec z (asin y)) as [H | H]; [exact H |].
  pose proof (asin_bound y) as Hb.
  assert (Hs : sin (asin y) < sin z) by (apply sin_increasing_1; lra).
  rewrite sin_asin in Hs by exact Hy. lra.
Qed.

Lemma sqrt_le_of_le_sqr (a s : R) : 0 <= a → 0 <= s → a <= s ^ 2 → sqrt a <= s.
Proof.
  intros Ha Hs Hle. rewrite <- (sqrt_Rsqr s Hs).
  apply sqrt_le_1_alt. unfold Rsqr. lra.
Qed.

Lemma sqrt_ge_of_sqr_le (a s : R) : 0 <= s → s ^ 2 <= a → s <= sqrt a.
Proof.
  intros Hs Hle. rewrite <- (sqrt_Rsqr s Hs).
  apply sqrt_le_1_alt. unfold Rsqr. lra.
Qed.

Lemma PI_bounds : 3 < PI <= 4.
Proof. split; [pose proof PI2_3_2; lra | exact PI_4]. Qed.

(** From (30, 31.2) to (30.1, 31.3): less than 50 km. *)
Lemma scenario_salon_2_near : haversine_km 30 31.2 30.1 31.3 <= 50.
Proof.
  unfold haversine_km. cbv zeta.
  pose proof PI_bounds as [Hpi3 Hpi4].
  pose proof (haversine_a_range (deg2rad 30) (deg2rad 31.2) (deg2rad 30.1) (deg2rad 31.3))
    as Hrange.
  set (a := haversine_a _ _ _ _) in *.
  set (delta := 0.1 * (PI / 180)).
  assert (Hdelta : 0 < delta <= 0.1 * 4 / 180) by (unfold delta; lra).
  assert (Ha : a <= sin delta ^ 2).
  { unfold a, haversine_a, deg2rad. cbv zeta.
    replace ((30.1 * (PI / 180) - 30 * (PI / 180)) / 2) with (delta / 2)
      by (unfold delta; lra).
    replace ((31.3 * (PI / 180) - 31.2 * (PI / 180)) / 2) with (delta / 2)
      by (unfold delta; lra).
    pose proof (COS_bound (30 * (PI / 180))) as Hc1.
    pose proof (COS_bound (30.1 * (PI / 180))) as Hc2.
    set (c1 := cos (30 * (PI / 180))) in *.
    set (c2 := cos (30.1 * (PI / 180))) in *.
    assert (Hcc : c1 * c2 <= 1) by nra.
    replace delta with (2 * (delta / 2)) at 3 by lra.
    rewrite sin_2a.
    pose proof (sin2_cos2 (delta / 2)) as Hsc. unfold Rsqr in Hsc.
    assert (Hs0 : 0 <= sin (delta / 2)) by (apply sin_ge_0; lra).
    assert (Hs1 : sin (delta / 2) < delta / 2) by (apply sin_lt_x; lra).
    set (s := sin (delta / 2)) in *. set (c := cos (delta / 2)) in *.
    assert (Hs2 : s * s <= 1 / 4) by nra.
    assert (Hc : 1 / 2 <= c * c) by lra.
    nra. }
  assert (Hsd : 0 <= sin delta) by (apply sin_ge_0; lra).
  assert (Hsqrt : sqrt a <= sin delta) by (apply sqrt_le_of_le_sqr; lra).
  pose proof (sqrt_unit_range a Hrange) as Hsr.
  assert (Hasin : asin (sqrt a) <= delta) by (apply asin_le_of_le_sin; lra).
  lra.
Qed.

(** From (30, 31.2) to (35, 40): more than 50 km. *)
Lemma scenario_salon_3_far : 50 < haversine_km 30 31.2 35 40.
Proof.
  unfold haversine_km. cbv zeta.
  pose proof PI_bounds as [Hpi3 Hpi4].
  pose proof (haversine_a_range (deg2rad 30) (deg2rad 31.2) (deg2rad 35) (deg2rad 40))
    as Hrange.
  set (a := haversine_a _ _ _ _) in *.
  set (beta := 2.5 * (PI / 180)).
  assert (Hbeta : 2.5 * 3 / 180 < beta <= PI / 2) by (unfold beta; lra).
  assert (Hsb : 0 <= sin beta) by (apply sin_ge_0; lra).
  assert (Ha : sin beta ^ 2 <= a).
  { unfold a, haversine_a, deg2rad. cbv zeta.
    replace ((35 * (PI / 180) - 30 * (PI / 180)) / 2) with beta by (unfold beta; lra).
    assert (Hc1 : 0 <= cos (30 * (PI / 180))) by (apply cos_ge_0; lra).
    assert (Hc2 : 0 <= cos (35 * (PI / 180))) by (apply cos_ge_0; lra).
    pose proof (pow2_ge_0 (sin ((40 * (PI / 180) - 31.2 * (PI / 180)) / 2))) as Hp.
    assert (0 <= cos (30 * (PI / 180)) * cos (35 * (PI / 180))) by nra.
    nra. }
  assert (Hsqrt : sin beta <= sqrt a) by (apply sqrt_ge_of_sqr_le; lra).
  pose proof (sqrt_unit_range a Hrange) as Hsr.
  assert (Hasin : beta <= asin (sqrt a)) by (apply asin_ge_of_sin_le; lra).
  lra.
Qed.

Lemma round_half_even_nonneg (x : R) : 0 <= x → (0 <= round_half_even x)%Z.
Proof.
  intros Hx. unfold round_half_even.
  pose proof (archimed x) as [Hup _].
  assert (Hf : (0 <= up x - 1)%Z).
  { assert (0 < up x)%Z by (apply lt_IZR; lra). lia. }
  cbv zeta.
  repeat match goal with |- context [if ?c then _ else _] => destruct c end; lia.
Qed.

Lemma round_half_even_0 : round_half_even 0 = 0%Z.
Proof.
  unfold round_half_even.
  assert (Hup : up 0 = 1%Z) by (symmetry; apply tech_up; lra).
  rewrite Hup. cbv zeta. change (1 - 1)%Z with 0%Z.
  destruct (Rlt_dec (0 - 0) (1 / 2)); [reflexivity | lra].
Qed.

Lemma py_round2_zero : py_round2 (Finite 0) = Finite 0.
Proof.
  unfold py_round2. replace (0 * 100) with 0 by lra.
  rewrite round_half_even_0. f_equal. lra.
Qed.

Lemma py_round2_nonneg (x : R) : 0 <= x → ∃ y, py_round2 (Finite x) = Finite y ∧ 0 <= y.
Proof.
  intros Hx. eexists. split; [reflexivity |].
  assert (0 <= round_half_even (x * 100))%Z by (apply round_half_even_nonneg; lra).
  assert (0 <= IZR (round_half_even (x * 100))) by (by apply IZR_le).
  lra.
Qed.

Lemma pyfloat_leb_finite (a b : R) : a <= b → pyfloat_leb (Finite a) (Finite b) = true.
Proof. intros Hle. cbn. destruct (Rle_dec a b); [done | lra]. Qed.

Lemma pyfloat_leb_finite_gt (a b : R) : b < a → pyfloat_leb (Finite a) (Finite b) = false.
Proof. intros Hlt. cbn. destruct (Rle_dec a b); [lra | done]. Qed.

(** The scenario of section 8: four salons, the user at (30.0, 31.2), a
    radius of 50 km.  The response lists salon 1 at distance 0, then salon 2;
    salon 3 is too far and salon 4 is not approved. *)
Example scenario_nearby :
  ∃ log resp d2,
    get_nearby_salons scenario_request scenario_db = (log, Return resp)
    ∧ status resp = 200%Z
    ∧ 0 <= d2
    ∧ response_salons resp
      = [ PyDict (<["distance" := PyFloat (Finite 0)]>
                    (to_dict (SalonRow 1 (Some 30) (Some 31.2) None None true)));
          PyDict (<["distance" := PyFloat (Finite d2)]>
                    (to_dict (SalonRow 2 (Some 30.1) (Some 31.3) None None true))) ].
Proof.
  destruct (py_round2_nonneg _ (haversine_km_nonneg 30 31.2 30.1 31.3))
    as (d2 & Hd2 & Hd2pos).
  assert (Hd1 : calculate_distance (Some 30) (Some 31.2) (Some 30) (Some 31.2)
                = Return (Finite 0)) by (apply calculate_distance_same; lra).
  assert (Hd2' : calculate_distance (Some 30) (Some 31.2) (Some 30.1) (Some 31.3)
                 = Return (Finite (haversine_km 30 31.2 30.1 31.3)))
    by (apply calculate_distance_nonzero; lra).
  assert (Hd3 : calculate_distance (Some 30) (Some 31.2) (Some 35) (Some 40)
                = Return (Finite (haversine_km 30 31.2 35 40)))
    by (apply calculate_distance_nonzero; lra).
  destruct (get_nearby_salons_total scenario_request scenario_db) as (log & resp & Hrun).
  exists log, resp, d2. split; [exact Hrun |]. split.
  { rewrite get_nearby_salons_run in Hrun. cbv zeta in Hrun.
    change (dict_get scenario_request "latitude" None) with (Some 30) in Hrun.
    change (dict_get scenario_request "longitude" None) with (Some 31.2) in Hrun.
    change (dict_get scenario_request "radius" (Some 50)) with (Some 50) in Hrun.
    rewrite !(proj2 (truthy_Some _)) in Hrun by lra. cbn [negb orb] in Hrun.
    rewrite fold_nearby_some in Hrun.
    cbn [app] in Hrun. rewrite list_sort_annotate in Hrun.
    by injection Hrun as _ <-. }
  split; [exact Hd2pos |].
  rewrite (get_nearby_salons_salons _ _ _ _ Hrun).
  change (dict_get scenario_request "latitude" None) with (Some 30).
  change (dict_get scenario_request "longitude" None) with (Some 31.2).
  change (dict_get scenario_request "radius" (Some 50)) with (Some 50).
  unfold nearby_sorted, nearby_kept, nearby_keep, within_radius, computed_distance.
  cbn [salons scenario_db List.filter eligible is_approved latitude longitude
       salon_row_model row_is_approved row_latitude row_longitude andb].
  rewrite Hd1, Hd2', Hd3.
  rewrite (pyfloat_leb_finite 0 50) by lra.
  rewrite (pyfloat_leb_finite _ 50 scenario_salon_2_near).
  rewrite (pyfloat_leb_finite_gt _ 50 scenario_salon_3_far).
  repeat match goal with
         | |- context [eligible ?s] =>
             let b := eval vm_compute in (eligible s) in change (eligible s) with b
         end.
  cbn [andb fmap list_fmap].
  unfold keyed_entry, annotate, distance_value, computed_distance.
  cbn [latitude longitude salon_row_model row_latitude row_longitude].
  rewrite Hd1, Hd2', py_round2_zero, Hd2.
  unfold sort_keyed. cbn [fold_left insert_by_key fst].
  replace (pyfloat_ltb (Finite d2) (Finite 0)) with false
    by (cbn; destruct (Rlt_dec d2 0); [lra | done]).
  reflexivity.
Qed.

(** ** A salon on the equator *)

(** C1, at the request of a user at (0.1, 31.2) with a radius of 50 km and
    the table that holds one approved salon at (0.0, 31.2).  The salon is
    eligible: it is approved and both its coordinates are present.  It lies
    on the user's meridian, a tenth of a degree away, so its Haversine
    distance is the finite arc 0.1 * pi / 180 * 6371 km (about 11 km), well
    within the radius, and C1 has it in the result.  The handler answers
    200 with no salon: the truth test of line 43 takes the zero latitude for
    a missing one and skips the salon (and [calculate_distance] would
    return the infinite sentinel for it, as in C2 and C6). *)
Theorem get_nearby_salons_equator_salon :
  let salon := SalonRow 1 (Some 0) (Some 31.2) None None true in
  salon ∈ salons equator_db
  ∧ eligible salon = true
  ∧ spec_distance (Some 0.1) (Some 31.2) (latitude salon) (longitude salon)
    = Finite (0.1 * (PI / 180) * 6371)
  ∧ 0 <= 0.1 * (PI / 180) * 6371 <= 50
  ∧ get_nearby_salons equator_request equator_db
    = ([SalonAll [IsApproved]],
       Return (jsonify {[ "salons" := PyList [];
                          "total_count" := PyInt 0;
                          "search_radius" := PyFloat (Finite 50) ]} 200)).
Proof.
  cbv zeta. split; [apply list_elem_of_here |]. split; [reflexivity |].
  split; [| split].
  - cbn [spec_distance latitude longitude salon_row_model row_latitude row_longitude].
    rewrite haversine_km_sym, haversine_km_meridian by lra. f_equal. lra.
  - pose proof PI_bounds. lra.
  - rewrite get_nearby_salons_run. cbv zeta.
    change (dict_get equator_request "latitude" None) with (Some 0.1).
    change (dict_get equator_request "longitude" None) with (Some 31.2).
    change (dict_get equator_request "radius" (Some 50)) with (Some 50).
    rewrite !(proj2 (truthy_Some _)) by lra. cbn [negb orb].
    unfold equator_db. cbn [salons List.filter is_approved salon_row_model
                            row_is_approved fold_result].
    unfold nearby_step.
    cbn [latitude longitude salon_row_model row_latitude row_longitude].
    rewrite truthy_zero. cbn [andb rbind]. reflexivity.
Qed.

(** * Further properties of the salon routes *)

Section NearbyMore.
Context {Salon Barber : Type} `{SalonModel Salon} `{BarberModel Barber}.
Implicit Types (db : DB Salon Barber) (salon s : Salon).

(** The response of the nearby search, case by case. *)
Lemma get_nearby_salons_cases data db :
  let user_lat := dict_get data "latitude" None in
  let user_lon := dict_get data "longitude" None in
  let radius := dict_get data "radius" (Some 50) in
  get_nearby_salons data db =
  if negb (truthy user_lat) || negb (truthy user_lon) then
    ([], Return (jsonify (error_body
                   "User location (latitude and longitude) is required") 400))
  else
    ([SalonAll [IsApproved]],
     Return
       match radius with
       | Some r =>
           jsonify
             {[ "salons" := PyList (PyDict <$> nearby_sorted user_lat user_lon (Some r) db);
                "total_count" := py_len (nearby_sorted user_lat user_lon (Some r) db);
                "search_radius" := PyFloat (Finite r) ]} 200
       | None =>
           if existsb (λ s, truthy (latitude s) && truthy (longitude s))
                (List.filter is_approved (salons db))
           then jsonify (error_body (exn_str le_none_error)) 500
           else jsonify {[ "salons" := PyList [];
                           "total_count" := PyInt 0;
                           "search_radius" := PyNone ]} 200
       end).
Proof.
  intros user_lat user_lon radius. rewrite get_nearby_salons_run. cbv zeta.
  fold user_lat user_lon radius.
  destruct (negb (truthy user_lat) || negb (truthy user_lon)); [done |].
  destruct radius as [r |].
  - rewrite fold_nearby_some, nearby_kept_eq. cbn [app].
    by rewrite list_sort_annotate.
  - rewrite fold_nearby_none. by destruct (existsb _ _).
Qed.



(** X2.  A nearby search reads the salons at most once and never asks for
    barbers; its answer, query log included, is the same whatever the barber
    table holds. *)
Theorem get_nearby_salons_ignores_barbers data (rows : list Salon)
    (barbers1 barbers2 : list Barber) :
  get_nearby_salons data {| salons := rows; barbers := barbers1 |}
  = get_nearby_salons data {| salons := rows; barbers := barbers2 |}
  ∧ ((get_nearby_salons data {| salons := rows; barbers := barbers1 |}).1 = []
     ∨ (get_nearby_salons data {| salons := rows; barbers := barbers1 |}).1
       = [SalonAll [IsApproved]]).
Proof.
  rewrite !get_nearby_salons_cases. cbv zeta.
  unfold nearby_sorted, nearby_kept. cbn [salons].
  split; [done |].
  destruct (negb _ || negb _); [by left | by right].
Qed.

(** X3.  In a successful nearby response the count is the number of salons
    listed and the radius is the one of the request, 50 when the request
    names none. *)
Theorem get_nearby_salons_count_radius data db :
  ∃ log resp,
    get_nearby_salons data db = (log, Return resp)
    ∧ (status resp = 200%Z →
       body resp !! "total_count"
       = Some (PyInt (Z.of_nat (length (response_salons resp))))
       ∧ body resp !! "search_radius"
         = Some (match data !! "radius" with
                 | None => PyFloat (Finite 50)
                 | Some None => PyNone
                 | Some (Some r) => PyFloat (Finite r)
                 end)).
Proof.
  rewrite get_nearby_salons_cases. cbv zeta. unfold dict_get.
  destruct (negb _ || negb _); [eexists _, _; split; [done |]; done |].
  destruct (data !! "radius") as [[r |] |]; cbn [default from_option Datatypes.id].
  - eexists _, _. split; [done |]. intros _.
    rewrite response_salons_ok, length_fmap. unfold jsonify, py_len. cbn [body].
    split; [by simplify_map_eq | by simplify_map_eq].
  - destruct (existsb _ _); eexists _, _; (split; [done |]); [done |].
    intros _. unfold jsonify, response_salons. cbn [body].
    split; by simplify_map_eq.
  - eexists _, _. split; [done |]. intros _.
    rewrite response_salons_ok, length_fmap. unfold jsonify, py_len. cbn [body].
    split; by simplify_map_eq.
Qed.
End NearbyMore.

(** ** Rounding to two decimals *)

Lemma round_half_even_error (y : R) :
  - (1 / 2) <= IZR (round_half_even y) - y <= 1 / 2.
Proof.
  unfold round_half_even. cbv zeta.
  pose proof (archimed y) as [Hup1 Hup2].
  repeat match goal with |- context [if ?c then _ else _] => destruct c end;
    rewrite ?plus_IZR, ?minus_IZR in *; lra.
Qed.

Lemma py_round2_finite (x : R) :
  ∃ n : Z, py_round2 (Finite x) = Finite (IZR n / 100)
           ∧ x - 1 / 200 <= IZR n / 100 <= x + 1 / 200
           ∧ (0 <= x → 0 <= IZR n / 100).
Proof.
  exists (round_half_even (x * 100)). split; [done |].
  pose proof (round_half_even_error (x * 100)) as Herr.
  split; [lra |]. intros Hx.
  assert (0 <= round_half_even (x * 100))%Z by (apply round_half_even_nonneg; lra).
  assert (0 <= IZR (round_half_even (x * 100))) by (by apply IZR_le).
  lra.
Qed.

Section NearbyBounds.
Context {Salon Barber : Type} `{SalonModel Salon} `{BarberModel Barber}.
Implicit Types (db : DB Salon Barber) (salon s : Salon).

(** The entries of a nearby response and the salons they come from. *)
Lemma get_nearby_salons_entry data db log resp e :
  get_nearby_salons data db = (log, Return resp) →
  e ∈ response_salons resp →
  ∃ s, e = PyDict (annotate (dict_get data "latitude" None)
                     (dict_get data "longitude" None) s)
       ∧ s ∈ salons db
       ∧ nearby_keep (dict_get data "latitude" None) (dict_get data "longitude" None)
           (dict_get data "radius" (Some 50)) s = true.
Proof.
  intros Hrun. rewrite (get_nearby_salons_salons _ _ _ _ Hrun).
  rewrite nearby_sorted_perm, <- list_fmap_compose.
  intros (s & -> & Hs)%list_elem_of_fmap.
  apply nearby_kept_spec in Hs as [Hin Hkeep]. by exists s.
Qed.

Lemma get_nearby_salons_entry_of data db log resp s :
  get_nearby_salons data db = (log, Return resp) →
  s ∈ salons db →
  nearby_keep (dict_get data "latitude" None) (dict_get data "longitude" None)
    (dict_get data "radius" (Some 50)) s = true →
  PyDict (annotate (dict_get data "latitude" None)
            (dict_get data "longitude" None) s) ∈ response_salons resp.
Proof.
  intros Hrun Hin Hkeep. rewrite (get_nearby_salons_salons _ _ _ _ Hrun).
  rewrite nearby_sorted_perm, <- list_fmap_compose.
  apply list_elem_of_fmap. exists s. split; [done |]. by apply nearby_kept_spec.
Qed.

Lemma within_radius_spec user_lat user_lon r s :
  within_radius user_lat user_lon r s = true ↔
  ∃ x, distance_value user_lat user_lon s = Finite x ∧ 0 <= x <= r.
Proof.
  unfold within_radius. rewrite computed_distance_eq.
  pose proof (calculate_distance_nonneg user_lat user_lon (latitude s) (longitude s)
                (distance_value user_lat user_lon s)) as Hpos.
  fold (computed_distance user_lat user_lon s) in Hpos.
  specialize (Hpos (computed_distance_eq _ _ _)).
  destruct (distance_value user_lat user_lon s) as [x |]; cbn in *.
  - destruct (Rle_dec x r); split; try done.
    + intros _. exists x. split; [done | lra].
    + intros (x' & [= <-] & Hx). lra.
  - split; [done | by intros (x & ? & _)].
Qed.

(** X4.  Every entry of a nearby response carries a distance that is a
    finite number of hundredths, is not negative, and exceeds the radius of
    the request by at most 0.005 (the rounding of line 47 comes after the
    comparison of line 45). *)
Theorem get_nearby_salons_distance_bounds data db :
  ∃ log resp,
    get_nearby_salons data db = (log, Return resp)
    ∧ ∀ e, e ∈ response_salons resp →
        ∃ (x : R) (n : Z),
          entry_distance e = Some (Finite x)
          ∧ x = IZR n / 100
          ∧ 0 <= x
          ∧ ∀ r, dict_get data "radius" (Some 50) = Some r → x <= r + 1 / 200.
Proof.
  destruct (get_nearby_salons_total data db) as (log & resp & Hrun).
  exists log, resp. split; [exact Hrun |]. intros e He.
  destruct (get_nearby_salons_entry _ _ _ _ _ Hrun He) as (s & -> & _ & Hkeep).
  unfold nearby_keep in Hkeep. apply andb_prop in Hkeep as [_ Hwithin].
  destruct (dict_get data "radius" (Some 50)) as [r |]; [| done].
  apply within_radius_spec in Hwithin as (d & Hd & Hd0 & Hdr).
  destruct (py_round2_finite d) as (n & Hround & Herr & Hpos).
  exists (IZR n / 100), n. rewrite entry_distance_annotate, Hd, Hround.
  repeat split; [by apply Hpos |].
  intros r' [= <-]. lra.
Qed.

(** X5.  Enlarging the radius loses no salon: with the same position and
    database, every entry returned for a radius is returned for every larger
    radius. *)
Theorem get_nearby_salons_radius_monotone data db (r1 r2 : R) :
  r1 <= r2 →
  ∃ log1 resp1 log2 resp2,
    get_nearby_salons (<["radius" := Some r1]> data) db = (log1, Return resp1)
    ∧ get_nearby_salons (<["radius" := Some r2]> data) db = (log2, Return resp2)
    ∧ ∀ e, e ∈ response_salons resp1 → e ∈ response_salons resp2.
Proof.
  intros Hle.
  destruct (get_nearby_salons_total (<["radius" := Some r1]> data) db)
    as (log1 & resp1 & Hrun1).
  destruct (get_nearby_salons_total (<["radius" := Some r2]> data) db)
    as (log2 & resp2 & Hrun2).
  exists log1, resp1, log2, resp2. repeat split; [done | done |].
  intros e He.
  destruct (get_nearby_salons_entry _ _ _ _ _ Hrun1 He) as (s & -> & Hin & Hkeep).
  pose proof (get_nearby_salons_entry_of _ _ _ _ s Hrun2 Hin) as Hgoal.
  unfold dict_get in *.
  rewrite !lookup_insert_eq in *.
  rewrite !lookup_insert_ne in * by done.
  apply Hgoal. cbn [default from_option Datatypes.id] in *.
  unfold nearby_keep in *. apply andb_prop in Hkeep as [-> Hw]. cbn [andb].
  apply within_radius_spec in Hw as (x & Hx & Hx0 & Hxr).
  apply within_radius_spec. exists x. split; [done | lra].
Qed.

(** X6.  With a negative radius a nearby search returns no salon. *)
Theorem get_nearby_salons_negative_radius data db (r : R) :
  dict_get data "radius" (Some 50) = Some r → r < 0 →
  ∃ log resp,
    get_nearby_salons data db = (log, Return resp) ∧ response_salons resp = [].
Proof.
  intros Hr Hneg.
  destruct (get_nearby_salons_total data db) as (log & resp & Hrun).
  exists log, resp. split; [exact Hrun |].
  destruct (response_salons resp) as [| e l] eqn:Hl; [done |].
  assert (He : e ∈ response_salons resp) by (rewrite Hl; left).
  destruct (get_nearby_salons_entry _ _ _ _ _ Hrun He) as (s & _ & _ & Hkeep).
  rewrite Hr in Hkeep. unfold nearby_keep in Hkeep.
  apply andb_prop in Hkeep as [_ Hw].
  apply within_radius_spec in Hw as (x & _ & Hx0 & Hxr). lra.
Qed.

End NearbyBounds.

(** ** The listing handlers *)

Lemma filter_filter_implied {A} (f g : A → bool) (l : list A) :
  (∀ x, f x = true → g x = true) →
  List.filter f (List.filter g l) = List.filter f l.
Proof.
  intros Himp. induction l as [| x l IH]; cbn [List.filter]; [done |].
  destruct (g x) eqn:Hg; cbn [List.filter]; rewrite IH; [done |].
  destruct (f x) eqn:Hf; [| done]. apply Himp in Hf. congruence.
Qed.

Lemma filter_sublist_implied {A} (f g : A → bool) (l : list A) :
  (∀ x, f x = true → g x = true) →
  List.filter f l `sublist_of` List.filter g l.
Proof.
  intros Himp. induction l as [| x l IH]; cbn [List.filter]; [done |].
  destruct (f x) eqn:Hf.
  - rewrite (Himp x Hf). by constructor.
  - destruct (g x); [by constructor | done].
Qed.

Lemma fmap_sublist {A C} (f : A → C) (l1 l2 : list A) :
  l1 `sublist_of` l2 → f <$> l1 `sublist_of` f <$> l2.
Proof. induction 1; cbn; by constructor. Qed.

Lemma lower_empty (s : string) : lower s = EmptyString ↔ s = EmptyString.
Proof. destruct s; split; done. Qed.

Section ListingMore.
Context {Salon Barber : Type} `{SalonModel Salon} `{BarberModel Barber}.
Implicit Types (db : DB Salon Barber) (salon s : Salon).

Lemma by_city_conds_approved (city_arg country_arg : option string) s :
  row_matches (by_city_conds city_arg country_arg) s = true → is_approved s = true.
Proof.
  unfold by_city_conds, row_matches. cbv zeta.
  destruct (truthy_str city_arg), (truthy_str country_arg);
    cbn [app forallb cond_holds]; by intros [? _]%andb_prop.
Qed.

Lemma by_city_conds_head (city_arg country_arg : option string) :
  ∃ cs, by_city_conds city_arg country_arg = IsApproved :: cs.
Proof.
  unfold by_city_conds. cbv zeta.
  destruct (truthy_str city_arg), (truthy_str country_arg); cbn [app]; eauto.
Qed.

Lemma listing_response_salons (views : list (gmap string pyval)) (n : pyval)
    (rest : gmap string pyval) code :
  response_salons (jsonify (<["salons" := PyList (PyDict <$> views)]> rest) code)
  = PyDict <$> views.
Proof. unfold response_salons, jsonify. cbn [body]. by rewrite lookup_insert_eq. Qed.

(** X8.  Salons that are not approved are invisible to the three list
    endpoints: deleting them from the table changes neither the queries nor
    the response of [/nearby], [/all] and [/by_city]. *)
Theorem unapproved_salons_invisible data args db :
  let db' := {| salons := List.filter is_approved (salons db);
                barbers := barbers db |} in
  get_nearby_salons data db' = get_nearby_salons data db
  ∧ get_all_salons db' = get_all_salons db
  ∧ get_salons_by_city args db' = get_salons_by_city args db.
Proof.
  intros db'. repeat split.
  - rewrite !get_nearby_salons_run. cbv zeta. unfold db'. cbn [salons].
    by rewrite filter_filter_implied.
  - rewrite !get_all_salons_run. unfold listing_run, with_barbers, barbers_of, db'.
    cbn [salons barbers fst snd]. rewrite filter_filter_implied; [done |].
    intros s. apply (by_city_conds_approved None None).
  - rewrite !get_salons_by_city_cases. cbv zeta.
    destruct (by_city_conds_head (args !! "city") (args !! "country")) as [cs ->].
    unfold db' at 1. cbn [salons]. rewrite select_rows_approved_first.
    destruct (select_rows _ _) as [rows | e]; done.
Qed.


(** X10.  The two listing handlers ask once for the salons and then once
    per listed salon for its barbers, in the order of the list: the number of
    queries is one more than the number of salons in the response. *)
Theorem listing_queries args db :
  ∃ log_all resp_all log_city resp_city,
    get_all_salons db = (log_all, Return resp_all)
    ∧ get_salons_by_city args db = (log_city, Return resp_city)
    ∧ log_all
      = SalonAll [IsApproved]
        :: ((λ s, BarberAll (salon_id s)) <$> List.filter is_approved (salons db))
    ∧ length log_all = S (length (response_salons resp_all))
    ∧ (∃ conds rows,
         log_city = SalonAll conds :: ((λ s, BarberAll (salon_id s)) <$> rows)
         ∧ response_salons resp_city = (λ s, PyDict (with_barbers db s)) <$> rows)
    ∧ length log_city = S (length (response_salons resp_city)).
Proof.
  destruct (get_salons_by_city_rows args db)
    as (log_city & resp_city & rows & Hrun & Hlog & Hsalons & _).
  cbv zeta in Hlog.
  rewrite get_all_salons_run, Hrun.
  eexists _, _, _, _. split; [done |]. split; [done |].
  rewrite !listing_response_salons by exact PyNone.
  unfold listing_run. cbn [fst snd]. rewrite approved_rows.
  rewrite Hsalons, Hlog.
  split; [done |]. split; [| split].
  - cbn [length]. by rewrite !length_fmap.
  - eexists _, _. split; [done |]. by rewrite <- list_fmap_compose.
  - cbn [length]. by rewrite !length_fmap.
Qed.

(** X11.  Filters only remove: whatever the city and country filters are
    (wildcards included), the salons of a [/by_city] response are a
    subsequence of the salons of the [/all] response. *)
Theorem get_salons_by_city_sublist_all args db :
  ∃ log_all resp_all log_city resp_city,
    get_all_salons db = (log_all, Return resp_all)
    ∧ get_salons_by_city args db = (log_city, Return resp_city)
    ∧ response_salons resp_city `sublist_of` response_salons resp_all.
Proof.
  destruct (get_salons_by_city_rows args db)
    as (log_city & resp_city & rows & Hrun & _ & Hsalons & Hsub).
  cbv zeta in Hsub.
  rewrite get_all_salons_run, Hrun.
  eexists _, _, _, _. split; [done |]. split; [done |].
  rewrite !listing_response_salons by exact PyNone.
  rewrite Hsalons. unfold listing_run. cbn [snd]. do 2 apply fmap_sublist.
  etrans; [exact Hsub |].
  apply filter_sublist_implied. intros s Hs.
  apply by_city_conds_approved in Hs. unfold row_matches. cbn. by rewrite Hs.
Qed.

(** X12.  A filter that is given but empty (as in [?city=&country=]) is not
    applied: the request is answered with the queries, the salons and the
    count of [/all]. *)
Theorem get_salons_by_city_empty_filter (args : gmap string string) db :
  truthy_str (args !! "city") = false →
  truthy_str (args !! "country") = false →
  ∃ log resp_all resp_city,
    get_all_salons db = (log, Return resp_all)
    ∧ get_salons_by_city args db = (log, Return resp_city)
    ∧ response_salons resp_city = response_salons resp_all
    ∧ body resp_city !! "total_count" = body resp_all !! "total_count"
    ∧ status resp_city = status resp_all.
Proof.
  intros Hcity Hcountry.
  rewrite get_all_salons_run, get_salons_by_city_run.
  2: { unfold by_city_conds. cbv zeta. rewrite Hcity, Hcountry. repeat constructor. }
  cbv zeta. unfold by_city_conds. cbv zeta. rewrite Hcity, Hcountry.
  eexists _, _, _. split; [done |]. split; [done |].
  rewrite !listing_response_salons by exact PyNone.
  split; [done |]. split; [| done].
  unfold jsonify. cbn [body]. by simplify_map_eq.
Qed.

(** X13.  The letter case of a filter does not matter.  Two city filters
    that are equal after case folding select the same salons, whatever the
    other arguments are; likewise for two country filters. *)
Theorem get_salons_by_city_case_insensitive (args : gmap string string) db
    (key c1 c2 : string) :
  key = "city" ∨ key = "country" →
  lower c1 = lower c2 →
  ∃ log1 resp1 log2 resp2,
    get_salons_by_city (<[key := c1]> args) db = (log1, Return resp1)
    ∧ get_salons_by_city (<[key := c2]> args) db = (log2, Return resp2)
    ∧ response_salons resp1 = response_salons resp2.
Proof.
  intros Hkey Hlower.
  assert (Htruthy : truthy_str (Some c1) = truthy_str (Some c2)).
  { destruct c1, c2; try done; cbn in Hlower; discriminate. }
  assert (Hlike : ∀ col, sql_ilike col (like_pattern (Some c1))
                         = sql_ilike col (like_pattern (Some c2))).
  { intros col. unfold sql_ilike. rewrite !length_like_pattern.
    rewrite <- (length_lower c1), <- (length_lower c2), Hlower.
    destruct (_ <? _)%N; [done |]. f_equal.
    destruct col as [t |]; [| done].
    unfold ilike, like_pattern. cbn [default from_option Datatypes.id].
    by rewrite !lower_app, Hlower. }
  assert (Hsel :
    select_rows (by_city_conds (<[key := c1]> args !! "city")
                               (<[key := c1]> args !! "country")) (salons db)
    = select_rows (by_city_conds (<[key := c2]> args !! "city")
                                 (<[key := c2]> args !! "country")) (salons db)).
  { apply select_rows_ext. intros s.
    destruct Hkey as [-> | ->];
      rewrite !lookup_insert_eq, !lookup_insert_ne by done;
      unfold by_city_conds; cbv zeta; rewrite Htruthy;
      destruct (truthy_str (Some c2)), (truthy_str (args !! _));
      cbn [app row_eval cond_eval]; by rewrite ?Hlike. }
  rewrite !get_salons_by_city_cases. cbv zeta. rewrite Hsel. clear Hsel.
  destruct (select_rows _ _) as [rows | e];
    eexists _, _, _, _; (split; [done |]); (split; [done |]); [| done].
  by rewrite !listing_response_salons by exact PyNone.
Qed.
End ListingMore.

Section DetailsMore.
Context {Salon Barber : Type} `{SalonModel Salon} `{BarberModel Barber}.
Implicit Types (db : DB Salon Barber) (salon s : Salon).

(** X14.  A lookup asks for the barbers only after it found an approved
    salon: the log of a 200 answer is the lookup followed by the barber query
    for the requested id; the log of every other answer is the lookup alone,
    and that answer is 404, 403 or 500.  It is 500 exactly when the id is
    outside the signed 64-bit range, where the lookup raises
    [OverflowError]. *)
Theorem get_salon_details_queries (id : Z) db :
  ∃ log resp,
    get_salon_details id db = (log, Return resp)
    ∧ (status resp = 200%Z ∧ log = [SalonGet id; BarberAll id]
       ∨ (status resp = 404%Z ∨ status resp = 403%Z ∨ status resp = 500%Z)
         ∧ log = [SalonGet id])
    ∧ (status resp = 500%Z ↔ (id < - 2 ^ 63 ∨ 2 ^ 63 <= id)%Z).
Proof.
  rewrite get_salon_details_run.
  destruct (in_int64 id) eqn:Hrange.
  - apply in_int64_spec in Hrange.
    destruct (List.find _ _) as [s |] eqn:Hfind.
    + apply List.find_some in Hfind as [_ Hid]. apply Z.eqb_eq in Hid.
      destruct (is_approved s); eexists _, _; (split; [done |]).
      * split; [left; by rewrite Hid |]. cbn [status jsonify]. split; [done | lia].
      * split; [right; split; [by right; left | done] |].
        cbn [status jsonify]. split; [done | lia].
    + eexists _, _. split; [done |].
      split; [right; split; [by left | done] |].
      cbn [status jsonify]. split; [done | lia].
  - eexists _, _. split; [done |].
    split; [right; split; [by right; right | done] |].
    split; [intros _ | done].
    destruct (Z.leb_spec (- 2 ^ 63) id) as [Hlo | Hlo]; [| by left].
    destruct (Z.ltb_spec id (2 ^ 63)) as [Hhi | Hhi]; [| by right].
    assert (in_int64 id = true) by (apply in_int64_spec; lia). congruence.
Qed.

(** X15.  What a lookup shows, the listing shows: when a lookup answers 200,
    the salon object of its body is one of the salons of the [/all]
    response. *)
Theorem get_salon_details_in_all (id : Z) db :
  ∃ log resp log_all resp_all,
    get_salon_details id db = (log, Return resp)
    ∧ get_all_salons db = (log_all, Return resp_all)
    ∧ (status resp = 200%Z →
       ∃ view, body resp !! "salon" = Some view
               ∧ view ∈ response_salons resp_all).
Proof.
  rewrite get_salon_details_run, get_all_salons_run.
  destruct (in_int64 id); [| by eexists _, _, _, _].
  destruct (List.find _ _) as [s |] eqn:Hfind.
  - apply List.find_some in Hfind as [Hin _].
    destruct (is_approved s) eqn:Happ; eexists _, _, _, _;
      (split; [done |]); (split; [done |]); [| done].
    intros _. exists (PyDict (with_barbers db s)). split.
    + unfold jsonify. cbn [body]. by rewrite lookup_singleton_eq.
    + rewrite listing_response_salons by exact PyNone.
      unfold listing_run. cbn [snd]. rewrite approved_rows.
      apply list_elem_of_fmap_2, list_elem_of_fmap_2.
      apply list_elem_of_In, List.filter_In. done.
  - eexists _, _, _, _. split; [done |]. split; [done |]. done.
Qed.

(** X16.  When no two salons share an id, the converse holds: every salon of
    the [/all] response is what a lookup of some id answers with status 200. *)
Theorem get_all_salons_in_details db :
  NoDup (salon_id <$> salons db) →
  ∃ log_all resp_all,
    get_all_salons db = (log_all, Return resp_all)
    ∧ ∀ view, view ∈ response_salons resp_all →
        ∃ id log resp,
          get_salon_details id db = (log, Return resp)
          ∧ status resp = 200%Z
          ∧ body resp !! "salon" = Some view.
Proof.
  intros Hnodup. rewrite get_all_salons_run. eexists _, _. split; [done |].
  rewrite listing_response_salons by exact PyNone.
  unfold listing_run. cbn [snd]. rewrite approved_rows.
  intros view (vw & -> & (s & -> & Hs)%list_elem_of_fmap)%list_elem_of_fmap.
  apply list_elem_of_In, List.filter_In in Hs as [Hin Happ].
  exists (salon_id s). rewrite get_salon_details_run, salon_id_int64.
  assert (Hfind : List.find (λ s', Z.eqb (salon_id s') (salon_id s)) (salons db)
                  = Some s).
  { clear Happ. induction (salons db) as [| s' l IH]; [done |].
    cbn [fmap list_fmap] in Hnodup. apply NoDup_cons in Hnodup as [Hnotin Hnodup].
    cbn [List.find]. destruct (Z.eqb_spec (salon_id s') (salon_id s)) as [Heq | Hne].
    - destruct Hin as [-> | Hin]; [done |].
      exfalso. apply Hnotin. rewrite Heq.
      apply list_elem_of_fmap_2. by apply list_elem_of_In.
    - destruct Hin as [-> | Hin]; [done |]. by apply IH. }
  rewrite Hfind, Happ. eexists _, _. split; [done |]. split; [done |].
  unfold jsonify. cbn [body]. by rewrite lookup_singleton_eq.
Qed.
End DetailsMore.

(** ** More on [calculate_distance] *)

(** X17.  Whatever its arguments, [calculate_distance] raises nothing and
    returns either the infinite sentinel or a finite distance between 0 and
    half the circumference of the sphere, 6371 * pi km. *)
Theorem calculate_distance_range (lat1 lon1 lat2 lon2 : option R) :
  ∃ d, calculate_distance lat1 lon1 lat2 lon2 = Return d
       ∧ (d = Infinity ∨ ∃ x, d = Finite x ∧ 0 <= x <= 6371 * PI).
Proof.
  rewrite calculate_distance_eq. eexists. split; [done |].
  destruct (py_all _); [| by left].
  destruct lat1 as [la1 |], lon1 as [lo1 |], lat2 as [la2 |], lon2 as [lo2 |];
    cbn [spec_distance]; try by left.
  right. eexists. split; [done |].
  split; [apply haversine_km_nonneg |].
  unfold haversine_km. cbv zeta.
  pose proof (asin_bound (sqrt (haversine_a (deg2rad la1) (deg2rad lo1)
                                  (deg2rad la2) (deg2rad lo2)))) as [_ Hub].
  lra.
Qed.

(** X18.  The distance does not depend on the order of the two points, for
    all arguments, missing and zero ones included. *)
Theorem calculate_distance_symmetric (lat1 lon1 lat2 lon2 : option R) :
  calculate_distance lat1 lon1 lat2 lon2 = calculate_distance lat2 lon2 lat1 lon1.
Proof.
  rewrite !calculate_distance_eq, (py_all_comm lat1 lon1 lat2 lon2).
  destruct (py_all [lat2; lon2; lat1; lon1]); [| done].
  destruct lat1 as [la1 |], lon1 as [lo1 |], lat2 as [la2 |], lon2 as [lo2 |];
    cbn [spec_distance]; try done.
  unfold haversine_km. cbv zeta. by rewrite haversine_a_sym.
Qed.

(** X19.  Along a meridian the distance is the arc: for two points of equal
    longitude, all coordinates non-zero, at most 180 degrees of latitude
    apart, the result is the difference of the latitudes in radians times
    6371 (about 111.2 km per degree). *)
Theorem calculate_distance_meridian (lat1 lat2 lon : R) :
  lat1 ≠ 0 → lat2 ≠ 0 → lon ≠ 0 →
  lat1 <= lat2 <= lat1 + 180 →
  calculate_distance (Some lat1) (Some lon) (Some lat2) (Some lon)
  = Return (Finite ((lat2 - lat1) * (PI / 180) * 6371)).
Proof.
  intros H1 H2 H3 Hlat.
  rewrite calculate_distance_nonzero by done.
  by rewrite haversine_km_meridian.
Qed.

(** * Hairstyle suggestions *)

Lemma suggestions_unisex :
  ∃ row, suggestions !! "unisex" = Some row
         ∧ row !! "oval"
           = Some ["Modern Cut"; "Layered Style"; "Textured Look"; "Classic Style"].
Proof. eexists. split; reflexivity. Qed.

Lemma row_ok_intro (l1 l2 l3 l4 l5 : list string) :
  (4 <= length l1 <= 5)%nat → (4 <= length l2 <= 5)%nat →
  (4 <= length l3 <= 5)%nat → (4 <= length l4 <= 5)%nat →
  (4 <= length l5 <= 5)%nat →
  row_ok {[ "oval" := l1; "round" := l2; "square" := l3; "heart" := l4;
            "long" := l5 ]}.
Proof.
  intros H1 H2 H3 H4 H5. split.
  - intros s Hs. rewrite !not_elem_of_cons in Hs.
    destruct Hs as (? & ? & ? & ? & ? & _).
    rewrite !lookup_insert_ne by done. by rewrite lookup_singleton_ne.
  - intros s l. rewrite !lookup_insert_Some, lookup_singleton_Some.
    intros [[_ <-] | [_ [[_ <-] | [_ [[_ <-] | [_ [[_ <-] | [_ [_ <-]]]]]]]]]; done.
Qed.

Lemma suggestions_rows (s : string) (row : gmap string (list string)) :
  suggestions !! s = Some row → row_ok row.
Proof.
  unfold suggestions.
  rewrite !lookup_insert_Some, lookup_singleton_Some.
  intros [[_ <-] | [_ [[_ <-] | [_ [_ <-]]]]]; apply row_ok_intro; cbn; lia.
Qed.

Lemma suggestions_unknown (s : string) :
  s ∉ ["male"; "female"; "unisex"] → suggestions !! s = None.
Proof.
  intros Hs. rewrite !not_elem_of_cons in Hs. destruct Hs as (? & ? & ? & _).
  unfold suggestions. rewrite !lookup_insert_ne by done. by rewrite lookup_singleton_ne.
Qed.

(** The row [suggestions.get(gender, suggestions["unisex"])] selects. *)
Lemma by_gender_row (gender : pyval) :
  hashable gender = true →
  ∃ row, (unisex <- dict_getitem suggestions "unisex" ;;
          dict_get_py suggestions gender unisex)%res = Return row
         ∧ row_ok row
         ∧ (known_gender gender = false → suggestions !! "unisex" = Some row).
Proof.
  intros Hh. destruct suggestions_unisex as (unisex & Hu & _).
  unfold dict_getitem. rewrite Hu. cbn [rbind].
  destruct gender as [| b | z | f | s | l | d]; try done;
    try (exists unisex; split; [done | split; [by eapply suggestions_rows | done]]).
  cbn [dict_get_py known_gender].
  destruct (suggestions !! s) as [row |] eqn:Hrow; cbn [default from_option Datatypes.id].
  - exists row. split; [done |]. split; [by eapply suggestions_rows |].
    intros Hk. apply bool_decide_eq_false in Hk.
    by rewrite (suggestions_unknown s Hk) in Hrow.
  - exists unisex. split; [done |]. split; [by eapply suggestions_rows | done].
Qed.

Lemma get_hairstyle_suggestions_eq (gender face_shape : pyval)
    (row : gmap string (list string)) :
  (unisex <- dict_getitem suggestions "unisex" ;;
   dict_get_py suggestions gender unisex)%res = Return row →
  get_hairstyle_suggestions gender face_shape
  = dict_get_py row face_shape
      ["Modern Cut"; "Layered Style"; "Textured Look"; "Classic Style"].
Proof.
  unfold get_hairstyle_suggestions.
  destruct suggestions_unisex as (unisex & Hu & Ho).
  unfold dict_getitem. rewrite Hu. cbn [rbind]. intros ->. cbn [rbind].
  by rewrite Ho.
Qed.

Lemma suggestions_hashable (gender face_shape : pyval) :
  hashable gender = true → hashable face_shape = true →
  ∃ names, get_hairstyle_suggestions gender face_shape = Return names
           ∧ (4 <= length names <= 5)%nat.
Proof.
  intros Hg Hf.
  destruct (by_gender_row gender Hg) as (row & Hrow & [Hdom Hlen] & _).
  rewrite (get_hairstyle_suggestions_eq _ _ _ Hrow).
  destruct face_shape as [| b | z | f | s | l | d]; cbn [hashable dict_get_py];
    try done; try (eexists; split; [done |]; cbn; lia).
  destruct (row !! s) as [names |] eqn:Hs; cbn [default from_option Datatypes.id].
  - exists names. split; [done |]. by eapply Hlen.
  - eexists. split; [done |]. cbn. lia.
Qed.

Lemma suggestions_unhashable (gender face_shape : pyval) :
  hashable gender && hashable face_shape = false →
  ∃ msg, get_hairstyle_suggestions gender face_shape = Raise (TypeError msg).
Proof.
  intros Hh. destruct (hashable gender) eqn:Hg; cbn [andb] in Hh.
  - destruct (by_gender_row gender Hg) as (row & Hrow & _).
    rewrite (get_hairstyle_suggestions_eq _ _ _ Hrow).
    destruct face_shape; try done; by eexists.
  - unfold get_hairstyle_suggestions.
    destruct suggestions_unisex as (unisex & Hu & _).
    unfold dict_getitem. rewrite Hu. cbn [rbind].
    destruct gender; try done; by eexists.
Qed.

(** X20.  [get_hairstyle_suggestions] raises exactly when an argument is a
    list or a dict (it is used as a dict key): then it raises [TypeError].
    For all other arguments, strings or not, known or not, it returns a list
    of four or five names. *)
Theorem get_hairstyle_suggestions_total (gender face_shape : pyval) :
  if hashable gender && hashable face_shape then
    ∃ names, get_hairstyle_suggestions gender face_shape = Return names
             ∧ (4 <= length names <= 5)%nat
  else
    ∃ msg, get_hairstyle_suggestions gender face_shape = Raise (TypeError msg).
Proof.
  destruct (hashable gender && hashable face_shape) eqn:Hh.
  - apply andb_prop in Hh as [Hg Hf]. by apply suggestions_hashable.
  - by apply suggestions_unhashable.
Qed.

(** X21.  A face shape the table does not know gives the unisex list for
    the oval face whatever the gender is, also for the genders "male" and
    "female", which have an oval list of their own. *)
Theorem get_hairstyle_suggestions_unknown_shape (gender face_shape : pyval) :
  hashable gender = true → hashable face_shape = true →
  known_face_shape face_shape = false →
  get_hairstyle_suggestions gender face_shape
  = Return ["Modern Cut"; "Layered Style"; "Textured Look"; "Classic Style"].
Proof.
  intros Hg Hf Hk.
  destruct (by_gender_row gender Hg) as (row & Hrow & [Hdom _] & _).
  rewrite (get_hairstyle_suggestions_eq _ _ _ Hrow).
  destruct face_shape as [| b | z | f | s | l | d]; try done.
  cbn [dict_get_py]. cbn [known_face_shape] in Hk.
  apply bool_decide_eq_false in Hk. by rewrite (Hdom s Hk).
Qed.

(** X22.  A gender the table does not know (another string, a number,
    [None]) is answered like "unisex", for every face shape. *)
Theorem get_hairstyle_suggestions_unknown_gender (gender face_shape : pyval) :
  hashable gender = true → known_gender gender = false →
  get_hairstyle_suggestions gender face_shape
  = get_hairstyle_suggestions (PyStr "unisex") face_shape.
Proof.
  intros Hg Hk.
  destruct (by_gender_row gender Hg) as (row & Hrow & _ & Hunisex).
  rewrite (get_hairstyle_suggestions_eq _ _ _ Hrow).
  symmetry. apply get_hairstyle_suggestions_eq.
  specialize (Hunisex Hk). unfold dict_getitem. rewrite Hunisex.
  cbn [rbind dict_get_py]. by rewrite Hunisex.
Qed.

(** X23.  [/get_suggestions] answers 200 unless the gender or the face
    shape of the request is a list or an object, and 500 then.  A 200 answer
    echoes the gender and the face shape as they were sent ("unisex" and
    "oval" when absent), also when the list was taken from a fallback, and
    its suggestions are the non-empty list of [get_hairstyle_suggestions]. *)
Theorem get_suggestions_response (data : gmap string pyval) :
  let gender := dict_get data "gender" (PyStr "unisex") in
  let face_shape := dict_get data "face_shape" (PyStr "oval") in
  if hashable gender && hashable face_shape then
    status (get_suggestions data) = 200%Z
    ∧ body (get_suggestions data) !! "gender" = Some gender
    ∧ body (get_suggestions data) !! "face_shape" = Some face_shape
    ∧ ∃ names,
        get_hairstyle_suggestions gender face_shape = Return names
        ∧ names ≠ []
        ∧ body (get_suggestions data) !! "suggestions"
          = Some (PyList (PyStr <$> names))
  else
    status (get_suggestions data) = 500%Z
    ∧ ∃ msg, body (get_suggestions data) !! "error" = Some (PyStr msg).
Proof.
  intros gender face_shape.
  unfold get_suggestions. fold gender face_shape.
  destruct (hashable gender && hashable face_shape) eqn:Hh.
  - apply andb_prop in Hh as [Hg Hf].
    destruct (suggestions_hashable _ _ Hg Hf) as (names & -> & Hlen). cbn [rbind].
    unfold jsonify. cbn [status body].
    split; [done |]. split; [by simplify_map_eq |]. split; [by simplify_map_eq |].
    exists names. split; [done |]. split; [| by simplify_map_eq].
    intros ->. cbn in Hlen. lia.
  - destruct (suggestions_unhashable _ _ Hh) as (msg & ->). cbn [rbind].
    unfold jsonify, error_body. cbn [status body exn_str].
    split; [done |]. exists msg. by simplify_map_eq.
Qed.

(** * The catch-all route *)

Section ServeFacts.
Context (static_folder_path : string) (path_exists : string → bool).

(** X24.  [serve] answers 404 itself or delegates to [send_from_directory]
    with the static folder and a path that exists under it: the requested
    path, or [index.html]. *)
Theorem serve_sends_existing (path : string) :
  match serve static_folder_path path_exists path with
  | Plain _ code => code = 404%Z
  | SendFromDirectory directory p =>
      directory = static_folder_path
      ∧ path_exists static_folder_path = true
      ∧ path_exists (path_join static_folder_path p) = true
      ∧ (p = path ∨ p = "index.html")
  end.
Proof.
  unfold serve.
  destruct static_folder_path as [| c rest] eqn:Hstatic; [done |].
  cbn [orb]. rewrite <- Hstatic.
  destruct (path_exists static_folder_path) eqn:Hdir; cbn [negb]; [| done].
  destruct path as [| c' p']; cbn [andb].
  - destruct (path_exists (path_join static_folder_path "index.html")) eqn:Hidx;
      [by repeat split; eauto | done].
  - destruct (path_exists (path_join static_folder_path (String c' p'))) eqn:Hp;
      [by repeat split; eauto |].
    destruct (path_exists (path_join static_folder_path "index.html")) eqn:Hidx;
      [by repeat split; eauto | done].
Qed.

(** X25.  With a static folder that exists and holds [index.html], [serve]
    returns neither of its own two 404 texts: it hands every request to
    [send_from_directory], with the requested path when that path is not
    empty and exists under the folder, and with [index.html] otherwise.
    What [send_from_directory] then answers is not part of the model. *)
Theorem serve_falls_back_to_index (path : string) :
  static_folder_path ≠ EmptyString →
  path_exists static_folder_path = true →
  path_exists (path_join static_folder_path "index.html") = true →
  serve static_folder_path path_exists path
  = SendFromDirectory static_folder_path
      (if match path with EmptyString => false | _ => true end
          && path_exists (path_join static_folder_path path)
       then path else "index.html").
Proof.
  intros Hne Hdir Hidx. unfold serve. rewrite Hdir, Hidx.
  destruct static_folder_path; [done |]. cbn [orb negb].
  by destruct (_ && _).
Qed.
End ServeFacts.

Section NearbyAndAll.
Context {Salon Barber : Type} `{SalonModel Salon} `{BarberModel Barber}.
Implicit Types (db : DB Salon Barber) (salon s : Salon).

(** X26.  Every salon a nearby search returns is also listed by [/all]: for
    each nearby entry there is an [/all] entry that agrees with it on every
    key other than ["distance"] and ["barbers"]. *)
Theorem get_nearby_salons_within_all data db :
  ∃ log resp log_all resp_all,
    get_nearby_salons data db = (log, Return resp)
    ∧ get_all_salons db = (log_all, Return resp_all)
    ∧ ∀ e, e ∈ response_salons resp →
        ∃ entry view : gmap string pyval,
          e = PyDict entry
          ∧ PyDict view ∈ response_salons resp_all
          ∧ ∀ k, k ≠ "distance" → k ≠ "barbers" → entry !! k = view !! k.
Proof.
  destruct (get_nearby_salons_total data db) as (log & resp & Hrun).
  rewrite get_all_salons_run. exists log, resp. eexists _, _.
  split; [exact Hrun |]. split; [done |]. intros e He.
  destruct (get_nearby_salons_entry _ _ _ _ _ Hrun He) as (s & -> & Hin & Hkeep).
  unfold nearby_keep, eligible in Hkeep.
  apply andb_prop in Hkeep as [Hel _].
  apply andb_prop in Hel as [Hel _]. apply andb_prop in Hel as [Happ _].
  eexists _, (with_barbers db s). split; [done |]. split.
  - rewrite listing_response_salons by exact PyNone.
    unfold listing_run. cbn [snd]. rewrite approved_rows.
    apply list_elem_of_fmap_2, list_elem_of_fmap_2.
    apply list_elem_of_In, List.filter_In. split; [by apply list_elem_of_In | done].
  - intros k Hk1 Hk2. unfold annotate, with_barbers.
    by rewrite !lookup_insert_ne.
Qed.

(** X27.  Every entry of a nearby response comes from a salon whose
    latitude and longitude are both present and both different from zero: a
    salon on the equator or on the prime meridian is never returned,
    whatever the radius. *)
Theorem get_nearby_salons_nonzero_coordinates data db :
  ∃ log resp,
    get_nearby_salons data db = (log, Return resp)
    ∧ ∀ e, e ∈ response_salons resp →
        ∃ s (lat lon : R),
          s ∈ salons db
          ∧ e = PyDict (annotate (dict_get data "latitude" None)
                          (dict_get data "longitude" None) s)
          ∧ latitude s = Some lat ∧ longitude s = Some lon
          ∧ lat ≠ 0 ∧ lon ≠ 0.
Proof.
  destruct (get_nearby_salons_total data db) as (log & resp & Hrun).
  exists log, resp. split; [exact Hrun |]. intros e He.
  destruct (get_nearby_salons_entry _ _ _ _ _ Hrun He) as (s & -> & Hin & Hkeep).
  unfold nearby_keep in Hkeep. apply andb_prop in Hkeep as [_ Hw].
  destruct (dict_get data "radius" (Some 50)) as [r |]; [| done].
  apply within_radius_spec in Hw as (x & Hx & _).
  destruct (truthy (latitude s) && truthy (longitude s)) eqn:Ht.
  - apply andb_prop in Ht as [Hla Hlo].
    apply truthy_is_Some in Hla as (lat & Hlat & Hlat0).
    apply truthy_is_Some in Hlo as (lon & Hlon & Hlon0).
    by exists s, lat, lon.
  - rewrite (distance_value_falsy _ _ _ Ht) in Hx. done.
Qed.

(** X28.  A request that names no radius is answered exactly like the same
    request with the radius 50. *)
Theorem get_nearby_salons_default_radius data db :
  data !! "radius" = None →
  get_nearby_salons data db = get_nearby_salons (<["radius" := Some 50]> data) db.
Proof.
  intros Hr. rewrite !get_nearby_salons_run. cbv zeta. unfold dict_get.
  rewrite lookup_insert_eq, !lookup_insert_ne by done. by rewrite Hr.
Qed.
End NearbyAndAll.

Lemma get_nearby_salons_default_radius_witness :
  get_nearby_salons {[ "latitude" := Some 30; "longitude" := Some 31.2 ]} scenario_db
  = get_nearby_salons
      (<["radius" := Some 50]> {[ "latitude" := Some 30; "longitude" := Some 31.2 ]})
      scenario_db.
Proof.
  exact (get_nearby_salons_default_radius
           {[ "latitude" := Some 30; "longitude" := Some 31.2 ]} scenario_db eq_refl).
Defined.

(** * Concrete instances *)

Lemma get_nearby_salons_radius_monotone_witness :
  ∃ log1 resp1 log2 resp2,
    get_nearby_salons (<["radius" := Some 10]> scenario_request) scenario_db
    = (log1, Return resp1)
    ∧ get_nearby_salons (<["radius" := Some 50]> scenario_request) scenario_db
      = (log2, Return resp2)
    ∧ ∀ e, e ∈ response_salons resp1 → e ∈ response_salons resp2.
Proof. apply (get_nearby_salons_radius_monotone scenario_request scenario_db 10 50). lra. Defined.

Lemma get_nearby_salons_negative_radius_witness :
  ∃ log resp,
    get_nearby_salons (<["radius" := Some (-1)]> scenario_request) scenario_db
    = (log, Return resp)
    ∧ response_salons resp = [].
Proof.
  apply (get_nearby_salons_negative_radius
           (<["radius" := Some (-1)]> scenario_request) scenario_db (-1));
    [reflexivity | lra].
Defined.


Lemma get_salons_by_city_empty_filter_witness :
  ∃ log resp_all resp_city,
    get_all_salons cairo_db = (log, Return resp_all)
    ∧ get_salons_by_city {[ "city" := EmptyString; "country" := EmptyString ]} cairo_db
      = (log, Return resp_city)
    ∧ response_salons resp_city = response_salons resp_all
    ∧ body resp_city !! "total_count" = body resp_all !! "total_count"
    ∧ status resp_city = status resp_all.
Proof.
  exact (get_salons_by_city_empty_filter
           {[ "city" := EmptyString; "country" := EmptyString ]} cairo_db
           eq_refl eq_refl).
Defined.

Lemma get_salons_by_city_case_insensitive_witness :
  ∃ log1 resp1 log2 resp2,
    get_salons_by_city {[ "city" := "cairo" ]} cairo_db = (log1, Return resp1)
    ∧ get_salons_by_city {[ "city" := "CAIRO" ]} cairo_db = (log2, Return resp2)
    ∧ response_salons resp1 = response_salons resp2.
Proof.
  exact (get_salons_by_city_case_insensitive ∅ cairo_db "city" "cairo" "CAIRO"
           (or_introl eq_refl) eq_refl).
Defined.

Lemma get_all_salons_in_details_witness :
  ∃ log_all resp_all,
    get_all_salons cairo_db = (log_all, Return resp_all)
    ∧ ∀ view, view ∈ response_salons resp_all →
        ∃ id log resp,
          get_salon_details id cairo_db = (log, Return resp)
          ∧ status resp = 200%Z
          ∧ body resp !! "salon" = Some view.
Proof.
  apply (get_all_salons_in_details cairo_db).
  apply (bool_decide_unpack _). vm_compute. exact I.
Defined.

Lemma calculate_distance_meridian_witness :
  calculate_distance (Some 30) (Some 31.2) (Some 35) (Some 31.2)
  = Return (Finite ((35 - 30) * (PI / 180) * 6371)).
Proof. apply (calculate_distance_meridian 30 35 31.2); lra. Defined.

Lemma get_hairstyle_suggestions_unknown_shape_witness :
  get_hairstyle_suggestions (PyStr "male") (PyStr "diamond")
  = Return ["Modern Cut"; "Layered Style"; "Textured Look"; "Classic Style"].
Proof.
  exact (get_hairstyle_suggestions_unknown_shape (PyStr "male") (PyStr "diamond")
           eq_refl eq_refl eq_refl).
Defined.

Lemma get_hairstyle_suggestions_unknown_gender_witness :
  get_hairstyle_suggestions (PyStr "other") (PyStr "round")
  = get_hairstyle_suggestions (PyStr "unisex") (PyStr "round").
Proof.
  exact (get_hairstyle_suggestions_unknown_gender (PyStr "other") (PyStr "round")
           eq_refl eq_refl).
Defined.

Lemma serve_falls_back_to_index_witness :
  serve "/app/static" example_files "about"
  = SendFromDirectory "/app/static" "index.html".
Proof.
  apply (serve_falls_back_to_index "/app/static" example_files "about");
    [discriminate | reflexivity | reflexivity].
Defined.
